(** * SentraCore backend: the data-access layer and its HTTP surface

    A shallow embedding of [models/sentra_core.py], of the operations of
    [controllers/sentra_core_controller.py] and of their endpoints in
    [routes/sentra_core_routes.py], search and count included (the count
    endpoint apart); the store's regular expressions are a parameter.

    Python dictionaries (documents, [$set] payloads, keyword arguments) are
    finite maps from field names to values; the MongoDB collection, the server
    clock and the ObjectId generator form an explicit world that every
    operation threads; exceptions are values of an error type, and
    [try]/[except] is a handler combinator.  Serialising a response to JSON
    is left out: a response is a status code and the value returned. *)

From Stdlib Require Import ZArith String Ascii List Permutation.
From stdpp Require Import base decidable option list sorting strings pretty
  gmap fin_maps.

Set Warnings "-clear-no-such-hyp".

Open Scope string_scope.
Open Scope Z_scope.

(** ** Exceptions *)

(** The exception classes the code raises or catches.  Every one of them is
    a subclass of Python's [Exception]; pydantic's [ValidationError] is also a
    [ValueError]; FastAPI's [HTTPException] is a plain [Exception]. *)
Inductive exn :=
| Exception (msg : string)
| ValueError (msg : string)
| ValidationError (msg : string)
| RequestValidationError (msg : string)
| TypeError (msg : string)
| PyMongoError (msg : string)
| OverflowError (msg : string)
| HTTPException (status_code : nat) (detail : string).

(** [isinstance(e, ValueError)] *)
Definition is_ValueError (e : exn) : bool :=
  match e with
  | ValueError _ | ValidationError _ => true
  | _ => false
  end.

(** [str(e)]; starlette prints an [HTTPException] as ["<status>: <detail>"]. *)
Definition str_exn (e : exn) : string :=
  match e with
  | Exception msg | ValueError msg | ValidationError msg
  | RequestValidationError msg | TypeError msg | PyMongoError msg
  | OverflowError msg => msg
  | HTTPException status_code detail => pretty status_code ++ ": " ++ detail
  end.

Inductive result (A : Type) :=
| Ok (a : A)
| Raise (e : exn).
Arguments Ok {A} a.
Arguments Raise {A} e.

Definition result_bind {A B} (r : result A) (k : A → result B) : result B :=
  match r with
  | Ok a => k a
  | Raise e => Raise e
  end.

(** ** Identifiers: [bson.ObjectId] *)

Definition hex_value (c : ascii) : option N :=
  let n := N_of_ascii c in
  if ((48 <=? n) && (n <=? 57))%N then Some (n - 48)%N
  else if ((97 <=? n) && (n <=? 102))%N then Some (n - 87)%N
  else if ((65 <=? n) && (n <=? 70))%N then Some (n - 55)%N
  else None.

Definition is_hex_digit (c : ascii) : bool :=
  match hex_value c with Some _ => true | None => false end.

(** [Py_ISSPACE]: the six white-space characters of ASCII. *)
Definition is_space (c : ascii) : bool :=
  let n := N_of_ascii c in
  ((9 <=? n) && (n <=? 13) || (n =? 32))%N.

(** [bytes.fromhex(s)]: two hexadecimal digits make a byte; white space is
    skipped in front of a pair, and refused inside one, as is any other
    character. *)
Fixpoint fromhex (s : list ascii) : option (list ascii) :=
  match s with
  | [] => Some []
  | c :: s' =>
      if is_space c then fromhex s'
      else match hex_value c, s' with
           | Some top, c' :: s'' =>
               match hex_value c' with
               | Some bot => cons (ascii_of_N (16 * top + bot)) <$> fromhex s''
               | None => None
               end
           | _, _ => None
           end
  end.

(** An ObjectId is the bytes it was built from: twelve when [ObjectId()] or
    the store made it. *)
Record ObjectId := mkObjectId { binary : list ascii }.

#[global] Instance ObjectId_eq_dec : EqDecision ObjectId.
Proof. solve_decision. Defined.

(** [ObjectId(s)] on a [str]: a string of 24 characters is handed to
    [bytes.fromhex], and the bytes read are kept, however many they are;
    anything else raises [InvalidId]. *)
Definition ObjectId_of_str (s : string) : result ObjectId :=
  if (String.length s =? 24)%nat then
    match fromhex (list_ascii_of_string s) with
    | Some bs => Ok (mkObjectId bs)
    | None => Raise (Exception (s ++ " is not a valid ObjectId"))
    end
  else Raise (Exception (s ++ " is not a valid ObjectId")).

(** [ObjectId.is_valid(s)]: does the constructor take [s]? *)
Definition ObjectId_is_valid (s : string) : bool :=
  match ObjectId_of_str s with
  | Ok _ => true
  | Raise _ => false
  end.

Definition hex_digit (n : N) : ascii :=
  if (n <? 10)%N then ascii_of_N (48 + n) else ascii_of_N (87 + n).

(** [binascii.hexlify]: two lower-case hexadecimal digits per byte. *)
Definition hexlify (bs : list ascii) : string :=
  fold_right
    (λ b s, String (hex_digit (N_of_ascii b / 16)%N)
              (String (hex_digit (N_of_ascii b mod 16)%N) s))
    "" bs.

(** [str(oid)] *)
Definition str_ObjectId (o : ObjectId) : string := hexlify (binary o).

(** [n.to_bytes(width, "big")], for [n] taken modulo [256 ^ width]. *)
Fixpoint to_bytes (width : nat) (n : N) (acc : list ascii) : list ascii :=
  match width with
  | O => acc
  | S width' => to_bytes width' (n / 256)%N (ascii_of_N (n mod 256)%N :: acc)
  end.

(** ** Values and documents *)

(** A [float] coordinate is only stored and handed back, never computed
    with: it is identified by its IEEE-754 binary64 bit pattern. *)
Definition float : Type := Z.

(** A [datetime]: microseconds since the epoch (Python's resolution). *)
Definition datetime : Type := Z.

(** Values inside a sub-document (a label or a connection). *)
Inductive scalar :=
| SNone
| SStr (s : string)
| SFloat (f : float).

#[global] Instance scalar_eq_dec : EqDecision scalar.
Proof. unfold float. solve_decision. Defined.

(** Values at the top level of a document or of a keyword-argument dict. *)
Inductive value :=
| VNone
| VStr (s : string)
| VObjectId (o : ObjectId)
| VDatetime (t : datetime)
| VList (l : list (gmap string scalar)).

#[global] Instance value_eq_dec : EqDecision value.
Proof. unfold datetime. solve_decision. Defined.

Abbreviation Document := (gmap string value).

(** BSON stores a datetime as whole milliseconds: the microseconds below are
    dropped when a document is encoded. *)
Definition bson_datetime (t : datetime) : datetime := 1000 * (t / 1000).

Definition bson_encode_value (v : value) : value :=
  match v with
  | VDatetime t => VDatetime (bson_datetime t)
  | _ => v
  end.

Definition bson_encode (d : Document) : Document := bson_encode_value <$> d.

(** ** Pydantic field validators

    Only the verdict and the validated value are modelled; the text of a
    validation message is abbreviated to the name of the offending field, and
    pydantic's lax coercions from text (a number or a date written as a
    string) are rejected, the code never producing such inputs itself. *)

Definition missing (field : string) : exn :=
  ValidationError (field ++ ": Field required").
Definition invalid (field : string) : exn :=
  ValidationError (field ++ ": Input should be a valid value").

Definition req_str (d : gmap string scalar) (k : string) : result string :=
  match d !! k with
  | Some (SStr s) => Ok s
  | Some _ => Raise (invalid k)
  | None => Raise (missing k)
  end.

Definition req_float (d : gmap string scalar) (k : string) : result float :=
  match d !! k with
  | Some (SFloat f) => Ok f
  | Some _ => Raise (invalid k)
  | None => Raise (missing k)
  end.

Fixpoint traverse {A B} (f : A → result B) (l : list A) : result (list B) :=
  match l with
  | [] => Ok []
  | a :: l' =>
      result_bind (f a) (λ b, result_bind (traverse f l') (λ bs, Ok (b :: bs)))
  end.

Module LabelModel.
Record t := mk
  { id : string; text : string; value : string;
    x : float; y : float; category : string }.

Definition validate (d : gmap string scalar) : result t :=
  result_bind (req_str d "id") (λ id,
  result_bind (req_str d "text") (λ text,
  result_bind (req_str d "value") (λ value,
  result_bind (req_float d "x") (λ x,
  result_bind (req_float d "y") (λ y,
  result_bind (req_str d "category") (λ category,
  Ok (mk id text value x y category))))))).

Definition model_dump (m : t) : gmap string scalar :=
  {[ "id" := SStr (id m); "text" := SStr (text m); "value" := SStr (value m);
     "x" := SFloat (x m); "y" := SFloat (y m);
     "category" := SStr (category m) ]}.
End LabelModel.

Module ConnectionModel.
Record t := mk { id : string; from_id : string; to_id : string }.

Definition validate (d : gmap string scalar) : result t :=
  result_bind (req_str d "id") (λ id,
  result_bind (req_str d "from_id") (λ from_id,
  result_bind (req_str d "to_id") (λ to_id,
  Ok (mk id from_id to_id)))).

Definition model_dump (m : t) : gmap string scalar :=
  {[ "id" := SStr (id m); "from_id" := SStr (from_id m);
     "to_id" := SStr (to_id m) ]}.
End ConnectionModel.

(** A field typed [str]. *)
Definition v_str (k : string) (v : value) : result string :=
  match v with
  | VStr s => Ok s
  | _ => Raise (invalid k)
  end.

(** A field typed [Optional[str]]. *)
Definition v_opt_str (k : string) (v : value) : result (option string) :=
  match v with
  | VNone => Ok None
  | VStr s => Ok (Some s)
  | _ => Raise (invalid k)
  end.

(** A field typed [List[LabelModel]] or [List[ConnectionModel]]. *)
Definition v_list {A} (validate : gmap string scalar → result A)
    (k : string) (v : value) : result (list A) :=
  match v with
  | VList l => traverse validate l
  | _ => Raise (invalid k)
  end.

Definition v_datetime (k : string) (v : value) : result datetime :=
  match v with
  | VDatetime t => Ok t
  | _ => Raise (invalid k)
  end.

(** [Field(...)] and a plain annotation: the key must be present. *)
Definition required {A} (d : Document) (k : string)
    (v : string → value → result A) : result A :=
  match d !! k with
  | Some x => v k x
  | None => Raise (missing k)
  end.

(** [= default] and [Field(default=...)]. *)
Definition with_default {A} (d : Document) (k : string) (dflt : A)
    (v : string → value → result A) : result A :=
  match d !! k with
  | Some x => v k x
  | None => Ok dflt
  end.

Definition opt_str_value (o : option string) : value :=
  match o with
  | Some s => VStr s
  | None => VNone
  end.

Module SentraCoreCreate.
Record t := mk
  { name : string;
    description : option string;
    labels : list LabelModel.t;
    connections : list ConnectionModel.t;
    selected_option : option string }.

(** The constructor called with keyword arguments, also the parse of a
  request body. *)
Definition validate (d : Document) : result t :=
  result_bind (required d "name" v_str) (λ name,
  result_bind (with_default d "description" (Some "") v_opt_str) (λ description,
  result_bind (with_default d "labels" [] (v_list LabelModel.validate)) (λ labels,
  result_bind (with_default d "connections" [] (v_list ConnectionModel.validate))
    (λ connections,
  result_bind (with_default d "selected_option" (Some "") v_opt_str)
    (λ selected_option,
  Ok (mk name description labels connections selected_option)))))).
End SentraCoreCreate.

Module SentraCoreUpdate.
(** Every field is [Optional[...] = None].  The outer [option] records
    whether the field was set by the caller ([model_fields_set]); the inner
    one is the value, [None] being an explicit null. *)
Record t := mk
  { name : option (option string);
    description : option (option string);
    labels : option (option (list LabelModel.t));
    connections : option (option (list ConnectionModel.t));
    selected_option : option (option string) }.

Definition v_opt_list {A} (validate : gmap string scalar → result A)
    (k : string) (v : value) : result (option (list A)) :=
  match v with
  | VNone => Ok None
  | VList l => result_bind (traverse validate l) (λ l', Ok (Some l'))
  | _ => Raise (invalid k)
  end.

Definition field {A} (d : Document) (k : string)
    (v : string → value → result A) : result (option A) :=
  match d !! k with
  | Some x => result_bind (v k x) (λ a, Ok (Some a))
  | None => Ok None
  end.

Definition validate (d : Document) : result t :=
  result_bind (field d "name" v_opt_str) (λ name,
  result_bind (field d "description" v_opt_str) (λ description,
  result_bind (field d "labels" (v_opt_list LabelModel.validate)) (λ labels,
  result_bind (field d "connections" (v_opt_list ConnectionModel.validate))
    (λ connections,
  result_bind (field d "selected_option" v_opt_str) (λ selected_option,
  Ok (mk name description labels connections selected_option)))))).

Definition opt_list_value {A} (dump : A → gmap string scalar)
    (o : option (list A)) : value :=
  match o with
  | Some l => VList (dump <$> l)
  | None => VNone
  end.

(** One entry of the dump: present only when the field was set. *)
Definition entry {A} (k : string) (f : option A) (to_value : A → value)
    (d : Document) : Document :=
  match f with
  | Some a => <[k := to_value a]> d
  | None => d
  end.

(** [model_dump(exclude_unset=True)] *)
Definition model_dump_exclude_unset (m : t) : Document :=
  entry "name" (name m) opt_str_value
  (entry "description" (description m) opt_str_value
  (entry "labels" (labels m) (opt_list_value LabelModel.model_dump)
  (entry "connections" (connections m)
         (opt_list_value ConnectionModel.model_dump)
  (entry "selected_option" (selected_option m) opt_str_value ∅)))).

Definition key_if_set {A} (k : string) (f : option A) : gset string :=
  match f with
  | Some _ => {[ k ]}
  | None => ∅
  end.

(** [model_fields_set] *)
Definition fields_set (m : t) : gset string :=
  key_if_set "name" (name m) ∪ key_if_set "description" (description m) ∪
  key_if_set "labels" (labels m) ∪ key_if_set "connections" (connections m) ∪
  key_if_set "selected_option" (selected_option m).
End SentraCoreUpdate.

(** ** The world: collection, clock, identifier generator *)

(** The calls the process makes on the collection, in order.  The log is a
    ghost: it records that an access was attempted, whatever its outcome. *)
Inductive store_op :=
| InsertOne (doc : Document)
| FindOne (id : value)
| Find (skip limit : Z)
| UpdateOne (id : value) (set : Document)
| DeleteOne (id : value).

Record World := mkWorld
  { documents : list Document;      (* the collection, in natural order *)
    reachable : bool;               (* does the store answer? *)
    clock : nat → datetime;         (* successive readings of utcnow() *)
    ticks : nat;                    (* readings taken so far *)
    oid_source : nat → N;           (* successive results of ObjectId() *)
    oids_drawn : nat;
    store_log : list store_op }.

Definition M (A : Type) : Type := World → result A * World.

Definition ret {A} (a : A) : M A := λ w, (Ok a, w).

Definition raise {A} (e : exn) : M A := λ w, (Raise e, w).

Definition bind {A B} (m : M A) (k : A → M B) : M B :=
  λ w, match m w with
       | (Ok a, w') => k a w'
       | (Raise e, w') => (Raise e, w')
       end.

Notation "'do' x <- c1 ; c2" := (bind c1 (λ x, c2))
  (at level 10, x name, c1 at level 100, c2 at level 200).

Definition lift {A} (r : result A) : M A := λ w, (r, w).

(** [try: body except Exception as e: handler(e)].  What the body did to
    the world before raising stays done. *)
Definition try_except {A} (body : M A) (handler : exn → M A) : M A :=
  λ w, match body w with
       | (Ok a, w') => (Ok a, w')
       | (Raise e, w') => handler e w'
       end.

Fixpoint traverseM {A B} (f : A → M B) (l : list A) : M (list B) :=
  match l with
  | [] => ret []
  | a :: l' => do b <- f a; do bs <- traverseM f l'; ret (b :: bs)
  end.

Definition tick (w : World) : World :=
  mkWorld (documents w) (reachable w) (clock w) (S (ticks w))
          (oid_source w) (oids_drawn w) (store_log w).

Definition drawn (w : World) : World :=
  mkWorld (documents w) (reachable w) (clock w) (ticks w)
          (oid_source w) (S (oids_drawn w)) (store_log w).

Definition with_documents (docs : list Document) (w : World) : World :=
  mkWorld docs (reachable w) (clock w) (ticks w)
          (oid_source w) (oids_drawn w) (store_log w).

Definition logged (op : store_op) (w : World) : World :=
  mkWorld (documents w) (reachable w) (clock w) (ticks w)
          (oid_source w) (oids_drawn w) (store_log w ++ [op]).

(** [datetime.utcnow()] *)
Definition utcnow : M datetime := λ w, (Ok (clock w (ticks w)), tick w).

(** The identifier the next call of [ObjectId()] returns. *)
Definition next_oid (w : World) : ObjectId :=
  mkObjectId (to_bytes 12 (oid_source w (oids_drawn w)) []).

(** [ObjectId()]: twelve fresh bytes. *)
Definition new_ObjectId : M ObjectId := λ w, (Ok (next_oid w), drawn w).

Definition get_documents : M (list Document) := λ w, (Ok (documents w), w).

Definition put_documents (docs : list Document) : M unit :=
  λ w, (Ok (), with_documents docs w).

(** Every operation on the collection starts with a round trip to the
    store, which fails when the store does not answer. *)
Definition store_call (op : store_op) : M unit :=
  λ w, if reachable w then (Ok (), logged op w)
       else (Raise (PyMongoError "ServerSelectionTimeoutError"), logged op w).

(** ** The collection (the interface of motor's [AsyncIOMotorCollection]) *)

(** [{"_id": id}] selects the documents whose ["_id"] is [id].  An
    identifier that is not twelve bytes long is the ["_id"] of no document
    the store made; what the driver puts on the wire for it is left out. *)
Definition has_id (id : value) (d : Document) : bool :=
  bool_decide (d !! "_id" = Some (bson_encode_value id)).

(** [insert_one(doc)]: the driver adds a missing ["_id"]; the store refuses
    a second document with the same ["_id"].  Returns [inserted_id]. *)
Definition insert_one (doc : Document) : M value :=
  do id <- match doc !! "_id" with
           | Some v => ret v
           | None => do o <- new_ObjectId; ret (VObjectId o)
           end;
  let doc := <["_id" := id]> doc in
  do _ <- store_call (InsertOne doc);
  do docs <- get_documents;
  if existsb (has_id id) docs
  then raise (PyMongoError "E11000 duplicate key error")
  else do _ <- put_documents (docs ++ [bson_encode doc]); ret id.

(** [find_one({"_id": id})] *)
Definition find_one (id : value) : M (option Document) :=
  do _ <- store_call (FindOne id);
  do docs <- get_documents;
  ret (List.find (has_id id) docs).

Record UpdateResult := mkUpdateResult { matched_count : Z; modified_count : Z }.

(** The effect of [{"$set": set}] on one document: the keys of [set] are
    written, every other key is kept. *)
Definition apply_set (set d : Document) : Document := bson_encode set ∪ d.

Fixpoint update_first (p : Document → bool) (f : Document → Document)
    (docs : list Document) : option (Document * list Document) :=
  match docs with
  | [] => None
  | d :: rest =>
      if p d then Some (d, f d :: rest)
      else match update_first p f rest with
           | Some (old, rest') => Some (old, d :: rest')
           | None => None
           end
  end.

(** [update_one({"_id": id}, {"$set": set})].  [modified_count] is 1 when
    the matched document differs after the update, 0 when nothing matched or
    the update left the document as it was. *)
Definition update_one (id : value) (set : Document) : M UpdateResult :=
  do _ <- store_call (UpdateOne id set);
  do docs <- get_documents;
  match update_first (has_id id) (apply_set set) docs with
  | None => ret (mkUpdateResult 0 0)
  | Some (old, docs') =>
      if bool_decide (apply_set set old !! "_id" = old !! "_id") then
        if bool_decide (apply_set set old = old) then ret (mkUpdateResult 1 0)
        else do _ <- put_documents docs'; ret (mkUpdateResult 1 1)
      else raise (PyMongoError "WriteError: the _id field is immutable")
  end.

Fixpoint remove_first (p : Document → bool) (docs : list Document)
    : option (list Document) :=
  match docs with
  | [] => None
  | d :: rest =>
      if p d then Some rest
      else match remove_first p rest with
           | Some rest' => Some (d :: rest')
           | None => None
           end
  end.

(** [delete_one({"_id": id})]; returns [deleted_count]. *)
Definition delete_one (id : value) : M Z :=
  do _ <- store_call (DeleteOne id);
  do docs <- get_documents;
  match remove_first (has_id id) docs with
  | None => ret 0
  | Some docs' => do _ <- put_documents docs'; ret 1
  end.

(** The sort key of [sort("created_at", -1)].  Values other than datetimes,
    which this code never writes under ["created_at"], are lumped together
    below every datetime. *)
Definition created_at_key (d : Document) : option Z :=
  match d !! "created_at" with
  | Some (VDatetime t) => Some t
  | _ => None
  end.

Definition key_le (a b : option Z) : Prop :=
  match a, b with
  | None, _ => True
  | Some _, None => False
  | Some x, Some y => x ≤ y
  end.

(** [d1] may come before [d2] in descending order of ["created_at"]. *)
Definition created_at_desc (d1 d2 : Document) : Prop :=
  key_le (created_at_key d2) (created_at_key d1).

#[global] Instance key_le_dec : RelDecision key_le.
Proof. intros [x|] [y|]; simpl; apply _. Defined.

#[global] Instance created_at_desc_dec : RelDecision created_at_desc.
Proof. intros d1 d2. unfold created_at_desc. apply _. Defined.

(** The largest integer BSON encodes (eight bytes, signed). *)
Definition MAX_INT64 : Z := 9223372036854775807.

(** The driver encodes [skip] and [limit] into the query once a server is
    selected, and raises on an integer that does not fit in eight bytes. *)
Definition encode_int64 (skip limit : Z) : M unit :=
  if (MAX_INT64 <? skip) || (MAX_INT64 <? limit)
  then raise (OverflowError "MongoDB can only handle up to 8-byte ints")
  else ret ().

(** [find().skip(skip).limit(limit).sort("created_at", -1)] followed by
    [to_list(length=limit)].  The cursor sorts first, then skips, then
    limits, whatever the order of the chained calls; a negative [skip] and a
    negative [length] are refused by the driver before any query is sent.
    Documents with the same ["created_at"] come here in one fixed order;
    the store promises no order among them, from one query to the next. *)
Definition find_sorted (skip limit : Z) : M (list Document) :=
  if skip <? 0 then raise (ValueError "skip must be >= 0")
  else if limit <? 0 then raise (ValueError "length must be non-negative")
  else
    do _ <- store_call (Find skip limit);
    do _ <- encode_int64 skip limit;
    do docs <- get_documents;
    ret (take (Z.to_nat limit)
              (drop (Z.to_nat skip) (merge_sort created_at_desc docs))).

(** [count_documents({})].  (The log of store calls keeps the queries by
    identifier, the listings and the writes; a count leaves no entry.) *)
Definition count_documents : M Z :=
  λ w, if reachable w then (Ok (Z.of_nat (length (documents w))), w)
       else (Raise (PyMongoError "ServerSelectionTimeoutError"), w).

(** The store's regular expressions, matched without regard to case
    ([{"$options": "i"}]), are the store's own: a pattern compiles to a test
    on strings, or is refused. *)
Definition Regex : Type := string → option (string → bool).

(** [{"name": {"$regex": ...}}] selects the documents whose name is a
    string the expression finds a match in. *)
Definition name_matches (test : string → bool) (d : Document) : bool :=
  match d !! "name" with
  | Some (VStr s) => test s
  | _ => false
  end.

(** [find({"name": {"$regex": pattern, "$options": "i"}})], then the same
    [skip], [limit], [sort] and [to_list] as the listing. *)
Definition find_regex_sorted (regex : Regex) (pattern : string)
    (skip limit : Z) : M (list Document) :=
  if skip <? 0 then raise (ValueError "skip must be >= 0")
  else if limit <? 0 then raise (ValueError "length must be non-negative")
  else
    do _ <- store_call (Find skip limit);
    do _ <- encode_int64 skip limit;
    match regex pattern with
    | None => raise (PyMongoError "OperationFailure: Regular expression is invalid")
    | Some test =>
        do docs <- get_documents;
        ret (take (Z.to_nat limit)
               (drop (Z.to_nat skip)
                  (merge_sort created_at_desc
                     (List.filter (name_matches test) docs))))
    end.

(** ** The record model *)

(** [Optional[Union[str, ObjectId]]] *)
Inductive IdValue :=
| IdStr (s : string)
| IdObjectId (o : ObjectId).

Module SentraCoreModel.
Record t := mk
  { id : option IdValue;
    name : string;
    description : option string;
    labels : list LabelModel.t;
    connections : list ConnectionModel.t;
    selected_option : option string;
    created_at : datetime;
    updated_at : datetime }.

Definition id_value (i : option IdValue) : value :=
  match i with
  | None => VNone
  | Some (IdStr s) => VStr s
  | Some (IdObjectId o) => VObjectId o
  end.

(** [model_dump(by_alias=True)]: the identifier goes under ["_id"]. *)
Definition model_dump_by_alias (m : t) : Document :=
  {[ "_id" := id_value (id m);
     "name" := VStr (name m);
     "description" := opt_str_value (description m);
     "labels" := VList (LabelModel.model_dump <$> labels m);
     "connections" := VList (ConnectionModel.model_dump <$> connections m);
     "selected_option" := opt_str_value (selected_option m);
     "created_at" := VDatetime (created_at m);
     "updated_at" := VDatetime (updated_at m) ]}.

Definition v_id (k : string) (v : value) : result (option IdValue) :=
  match v with
  | VNone => Ok None
  | VStr s => Ok (Some (IdStr s))
  | VObjectId o => Ok (Some (IdObjectId o))
  | _ => Raise (invalid k)
  end.

(** [Field(default_factory=...)]: the factory runs when the key is absent. *)
Definition with_factory {A} (given : option value) (k : string)
    (factory : M A) (v : string → value → result A) : M (result A) :=
  match given with
  | Some x => ret (v k x)
  | None => do a <- factory; ret (Ok a)
  end.

(** [populate_by_name=True]: the alias ["_id"] first, then the name. *)
Definition lookup_id (d : Document) : option value :=
  match d !! "_id" with
  | Some v => Some v
  | None => d !! "id"
  end.

(** The fields gathered into a record, or the validation error. *)
Definition assemble (d : Document) (r_id : result (option IdValue))
    (r_created_at r_updated_at : result datetime) : result t :=
  result_bind r_id (λ id,
  result_bind (required d "name" v_str) (λ name,
  result_bind (with_default d "description" (Some "") v_opt_str) (λ description,
  result_bind (with_default d "labels" [] (v_list LabelModel.validate)) (λ labels,
  result_bind (with_default d "connections" [] (v_list ConnectionModel.validate))
    (λ connections,
  result_bind (with_default d "selected_option" (Some "") v_opt_str)
    (λ selected_option,
  result_bind r_created_at (λ created_at,
  result_bind r_updated_at (λ updated_at,
  Ok (mk id name description labels connections selected_option
         created_at updated_at))))))))).

(** The constructor on a dictionary of keyword arguments.  The default
    factories run, in declaration order, for the keys that are missing; one
    [ValidationError] then reports the fields that failed. *)
Definition validate (d : Document) : M t :=
  do r_id <- with_factory (lookup_id d) "_id"
                (do o <- new_ObjectId; ret (Some (IdObjectId o))) v_id;
  do r_created_at <- with_factory (d !! "created_at") "created_at" utcnow v_datetime;
  do r_updated_at <- with_factory (d !! "updated_at") "updated_at" utcnow v_datetime;
  lift (assemble d r_id r_created_at r_updated_at).

(** The constructor applied to the result of a query, which is [None] when
    nothing was found; unpacking [None] is a [TypeError]. *)
Definition of_query (doc : option Document) : M t :=
  match doc with
  | Some d => validate d
  | None => raise (TypeError "argument after ** must be a mapping, not NoneType")
  end.
End SentraCoreModel.

(** ** The wire shapes of the save-state request (declared in the routes) *)

Module FrontendLabel.
Record t := mk
  { id : string; text : string; value : string;
    x : float; y : float; category : string }.

Definition validate (d : gmap string scalar) : result t :=
  result_bind (req_str d "id") (λ id,
  result_bind (req_str d "text") (λ text,
  result_bind (req_str d "value") (λ value,
  result_bind (req_float d "x") (λ x,
  result_bind (req_float d "y") (λ y,
  result_bind (req_str d "category") (λ category,
  Ok (mk id text value x y category))))))).
End FrontendLabel.

Module FrontendConnection.
(** [from_: str = Field(alias="from")]: the wire name is ["from"]. *)
Record t := mk { id : string; from_ : string; to : string }.

Definition validate (d : gmap string scalar) : result t :=
  result_bind (req_str d "id") (λ id,
  result_bind (req_str d "from") (λ from_,
  result_bind (req_str d "to") (λ to,
  Ok (mk id from_ to)))).
End FrontendConnection.

Module SaveStateRequest.
Record t := mk
  { name : string;
    description : option string;
    labels : list FrontendLabel.t;
    connections : list FrontendConnection.t;
    selected_option : string }.

Definition validate (d : Document) : result t :=
  result_bind (required d "name" v_str) (λ name,
  result_bind (with_default d "description" (Some "") v_opt_str) (λ description,
  result_bind (required d "labels" (v_list FrontendLabel.validate)) (λ labels,
  result_bind (required d "connections" (v_list FrontendConnection.validate))
    (λ connections,
  result_bind (required d "selected_option" v_str) (λ selected_option,
  Ok (mk name description labels connections selected_option)))))).
End SaveStateRequest.

(** ** The repository: [SentraCoreController] *)

(** [try: ... except Exception as e: raise Exception(f"<prefix>{str(e)}")] *)
Definition wrapped {A} (prefix : string) (body : M A) : M A :=
  try_except body (λ e, raise (Exception (prefix ++ str_exn e))).

(** Truth value of a dictionary: empty is false. *)
Definition truthy (d : Document) : bool := bool_decide (d ≠ ∅).

Module SentraCoreController.

Definition create_sentra_core (sentra_core_data : SentraCoreCreate.t)
    : M SentraCoreModel.t :=
  wrapped "Error creating SentraCore configuration: "
    (do id <- new_ObjectId;
     do created_at <- utcnow;
     do updated_at <- utcnow;
     let sentra_core_model :=
       SentraCoreModel.mk (Some (IdObjectId id))
         (SentraCoreCreate.name sentra_core_data)
         (SentraCoreCreate.description sentra_core_data)
         (SentraCoreCreate.labels sentra_core_data)
         (SentraCoreCreate.connections sentra_core_data)
         (SentraCoreCreate.selected_option sentra_core_data)
         created_at updated_at in
     do inserted_id <-
       insert_one (SentraCoreModel.model_dump_by_alias sentra_core_model);
     do created_doc <- find_one inserted_id;
     SentraCoreModel.of_query created_doc).

Definition get_sentra_core_by_id (sentra_core_id : string)
    : M (option SentraCoreModel.t) :=
  wrapped "Error retrieving SentraCore configuration: "
    (if negb (ObjectId_is_valid sentra_core_id)
     then raise (ValueError "Invalid ObjectId format")
     else
       do oid <- lift (ObjectId_of_str sentra_core_id);
       do doc <- find_one (VObjectId oid);
       match doc with
       | Some d =>
           if truthy d then do m <- SentraCoreModel.validate d; ret (Some m)
           else ret None
       | None => ret None
       end).

Definition get_all_sentra_core (skip limit : Z) : M (list SentraCoreModel.t) :=
  wrapped "Error retrieving SentraCore configurations: "
    (do documents <- find_sorted skip limit;
     traverseM SentraCoreModel.validate documents).

Definition update_sentra_core (sentra_core_id : string)
    (update_data : SentraCoreUpdate.t) : M (option SentraCoreModel.t) :=
  wrapped "Error updating SentraCore configuration: "
    (if negb (ObjectId_is_valid sentra_core_id)
     then raise (ValueError "Invalid ObjectId format")
     else
       let update_dict := SentraCoreUpdate.model_dump_exclude_unset update_data in
       do now <- utcnow;
       let update_dict := <["updated_at" := VDatetime now]> update_dict in
       do oid <- lift (ObjectId_of_str sentra_core_id);
       do result <- update_one (VObjectId oid) update_dict;
       if modified_count result =? 0 then ret None
       else
         do oid <- lift (ObjectId_of_str sentra_core_id);
         do updated_doc <- find_one (VObjectId oid);
         do m <- SentraCoreModel.of_query updated_doc;
         ret (Some m)).

Definition delete_sentra_core (sentra_core_id : string) : M bool :=
  wrapped "Error deleting SentraCore configuration: "
    (if negb (ObjectId_is_valid sentra_core_id)
     then raise (ValueError "Invalid ObjectId format")
     else
       do oid <- lift (ObjectId_of_str sentra_core_id);
       do deleted_count <- delete_one (VObjectId oid);
       ret (0 <? deleted_count)).

Definition search_sentra_core_by_name (regex : Regex) (name : string)
    (skip limit : Z) : M (list SentraCoreModel.t) :=
  wrapped "Error searching SentraCore configurations: "
    (do documents <- find_regex_sorted regex name skip limit;
     traverseM SentraCoreModel.validate documents).

Definition get_sentra_core_count : M Z :=
  wrapped "Error counting SentraCore configurations: " count_documents.

Definition save_current_state (name : string) (labels : list FrontendLabel.t)
    (connections : list FrontendConnection.t) (selected_option : string)
    (description : option string) : M SentraCoreModel.t :=
  wrapped "Error saving current state: "
    (let converted_labels :=
       (λ label, {[ "id" := SStr (FrontendLabel.id label);
                    "text" := SStr (FrontendLabel.text label);
                    "value" := SStr (FrontendLabel.value label);
                    "x" := SFloat (FrontendLabel.x label);
                    "y" := SFloat (FrontendLabel.y label);
                    "category" := SStr (FrontendLabel.category label) ]})
       <$> labels in
     let converted_connections :=
       (λ connection,
          {[ "id" := SStr (FrontendConnection.id connection);
             "from_id" := SStr (FrontendConnection.from_ connection);
             "to_id" := SStr (FrontendConnection.to connection) ]})
       <$> connections in
     do sentra_core_data <-
       lift (SentraCoreCreate.validate
               {[ "name" := VStr name;
                  "description" := opt_str_value description;
                  "labels" := VList converted_labels;
                  "connections" := VList converted_connections;
                  "selected_option" := VStr selected_option ]});
     create_sentra_core sentra_core_data).
End SentraCoreController.

(** ** The HTTP surface *)

Inductive content :=
| CModel (m : SentraCoreModel.t)
| CModels (l : list SentraCoreModel.t)
| CMessage (message : string)
| CDetail (detail : string).

Record Response := mkResponse { status_code : nat; body : content }.

(** What the framework makes of a handler's outcome: the declared status on
    a return, the exception's own status for an [HTTPException], 422 for a
    request that failed validation, 500 for anything else. *)
Definition respond {A} (success : nat) (to_content : A → content)
    (handler : M A) : World → Response * World :=
  λ w, match handler w with
       | (Ok a, w') => (mkResponse success (to_content a), w')
       | (Raise (HTTPException status detail), w') =>
           (mkResponse status (CDetail detail), w')
       | (Raise (RequestValidationError msg), w') =>
           (mkResponse 422 (CDetail msg), w')
       | (Raise _, w') => (mkResponse 500 (CDetail "Internal Server Error"), w')
       end.

(** The body of a request, parsed into the handler's parameter type before
    the handler is called. *)
Definition parse_body {A} (validate : Document → result A) (raw : Document)
    : M A :=
  match validate raw with
  | Ok a => ret a
  | Raise e => raise (RequestValidationError (str_exn e))
  end.

(** [Query(default, ge=..., le=...)] *)
Definition Query (given : option Z) (default : Z) (ge : Z) (le : option Z)
    : M Z :=
  let v := match given with Some v => v | None => default end in
  if v <? ge then raise (RequestValidationError "Input should be greater than or equal")
  else match le with
       | Some hi =>
           if hi <? v
           then raise (RequestValidationError "Input should be less than or equal")
           else ret v
       | None => ret v
       end.

Module routes.

(** [except ValueError as e: 400] then [except Exception as e: 500], around
    the whole body of the handler. *)
Definition except_400_500 {A} (body : M A) : M A :=
  try_except body
    (λ e, if is_ValueError e then raise (HTTPException 400 (str_exn e))
          else raise (HTTPException 500 (str_exn e))).

Definition not_found {A} : M A :=
  raise (HTTPException 404 "SentraCore configuration not found").

Definition create_sentra_core (raw : Document) : World → Response * World :=
  respond 201 CModel
    (do sentra_core_data <- parse_body SentraCoreCreate.validate raw;
     try_except (SentraCoreController.create_sentra_core sentra_core_data)
       (λ e, raise (HTTPException 400 (str_exn e)))).

Definition get_sentra_core (sentra_core_id : string)
    : World → Response * World :=
  respond 200 CModel
    (except_400_500
       (do sentra_core <-
          SentraCoreController.get_sentra_core_by_id sentra_core_id;
        match sentra_core with
        | None => not_found
        | Some m => ret m
        end)).

Definition get_all_sentra_core (skip limit : option Z)
    : World → Response * World :=
  respond 200 CModels
    (do skip <- Query skip 0 0 None;
     do limit <- Query limit 100 1 (Some 1000);
     try_except (SentraCoreController.get_all_sentra_core skip limit)
       (λ e, raise (HTTPException 500 (str_exn e)))).

Definition update_sentra_core (sentra_core_id : string) (raw : Document)
    : World → Response * World :=
  respond 200 CModel
    (do update_data <- parse_body SentraCoreUpdate.validate raw;
     except_400_500
       (do updated_sentra_core <-
          SentraCoreController.update_sentra_core sentra_core_id update_data;
        match updated_sentra_core with
        | None => not_found
        | Some m => ret m
        end)).

Definition delete_sentra_core (sentra_core_id : string)
    : World → Response * World :=
  respond 200 CMessage
    (except_400_500
       (do deleted <- SentraCoreController.delete_sentra_core sentra_core_id;
        if negb deleted then not_found
        else ret "SentraCore configuration deleted successfully")).

(** [name: str = Query(...)] is required. *)
Definition search_sentra_core (regex : Regex) (name : option string)
    (skip limit : option Z) : World → Response * World :=
  respond 200 CModels
    (do name <- match name with
                | Some n => ret n
                | None => raise (RequestValidationError "name: Field required")
                end;
     do skip <- Query skip 0 0 None;
     do limit <- Query limit 100 1 (Some 1000);
     try_except
       (SentraCoreController.search_sentra_core_by_name regex name skip limit)
       (λ e, raise (HTTPException 500 (str_exn e)))).

Definition save_current_state (raw : Document) : World → Response * World :=
  respond 201 CModel
    (do request <- parse_body SaveStateRequest.validate raw;
     try_except
       (SentraCoreController.save_current_state
          (SaveStateRequest.name request)
          (SaveStateRequest.labels request)
          (SaveStateRequest.connections request)
          (SaveStateRequest.selected_option request)
          (SaveStateRequest.description request))
       (λ e, raise (HTTPException 400 (str_exn e)))).
End routes.

(** ** Vocabulary of the statements *)

Open Scope list_scope.

(** A well-formed identifier: exactly 24 hexadecimal digits, the text of
    twelve bytes.  [ObjectId.is_valid] holds of every such string, and of
    some others, which denote fewer bytes. *)
Definition is_valid (s : string) : bool :=
  (String.length s =? 24)%nat && forallb is_hex_digit (list_ascii_of_string s).

(** The identifier a string denotes. *)
Definition oid_of (id : string) : ObjectId :=
  mkObjectId (default [] (fromhex (list_ascii_of_string id))).

(** The stored document a query by [id] finds. *)
Definition stored (id : string) (w : World) : option Document :=
  List.find (has_id (VObjectId (oid_of id))) (documents w).

(** The collection after its first document satisfying [p] went through [f]
    (unchanged when there is none). *)
Definition update_docs (p : Document → bool) (f : Document → Document)
    (docs : list Document) : list Document :=
  match update_first p f docs with
  | Some (_, docs') => docs'
  | None => docs
  end.

(** The collection without its first document satisfying [p]. *)
Definition remove_docs (p : Document → bool) (docs : list Document)
    : list Document :=
  match remove_first p docs with
  | Some docs' => docs'
  | None => docs
  end.

(** The record [create] builds from a request, before it is stored. *)
Definition new_record (data : SentraCoreCreate.t) (w : World)
    : SentraCoreModel.t :=
  SentraCoreModel.mk (Some (IdObjectId (next_oid w)))
    (SentraCoreCreate.name data) (SentraCoreCreate.description data)
    (SentraCoreCreate.labels data) (SentraCoreCreate.connections data)
    (SentraCoreCreate.selected_option data)
    (clock w (ticks w)) (clock w (S (ticks w))).

(** A record as the store hands it back: timestamps in whole milliseconds. *)
Definition as_stored (m : SentraCoreModel.t) : SentraCoreModel.t :=
  SentraCoreModel.mk (SentraCoreModel.id m)
    (SentraCoreModel.name m) (SentraCoreModel.description m)
    (SentraCoreModel.labels m) (SentraCoreModel.connections m)
    (SentraCoreModel.selected_option m)
    (bson_datetime (SentraCoreModel.created_at m))
    (bson_datetime (SentraCoreModel.updated_at m)).

(** The world [create] leaves behind when it succeeds. *)
Definition after_create (data : SentraCoreCreate.t) (w : World) : World :=
  logged (FindOne (VObjectId (next_oid w)))
    (with_documents
       (documents w
        ++ [SentraCoreModel.model_dump_by_alias (as_stored (new_record data w))])
       (logged (InsertOne (SentraCoreModel.model_dump_by_alias (new_record data w)))
          (tick (tick (drawn w))))).

(** Most recent first. *)
Definition newest_first (a b : SentraCoreModel.t) : Prop :=
  SentraCoreModel.created_at b ≤ SentraCoreModel.created_at a.

(** The translation of the frontend shape, in the words of the
    specification: a label maps field for field, a connection
    [{id, from, to}] maps to [{id, from_id: from, to_id: to}]. *)
Definition spec_label (l : FrontendLabel.t) : LabelModel.t :=
  LabelModel.mk (FrontendLabel.id l) (FrontendLabel.text l)
    (FrontendLabel.value l) (FrontendLabel.x l) (FrontendLabel.y l)
    (FrontendLabel.category l).

Definition spec_connection (c : FrontendConnection.t) : ConnectionModel.t :=
  ConnectionModel.mk (FrontendConnection.id c) (FrontendConnection.from_ c)
    (FrontendConnection.to c).

Definition spec_create_request (name : string)
    (labels : list FrontendLabel.t) (connections : list FrontendConnection.t)
    (selected_option : string) (description : option string)
    : SentraCoreCreate.t :=
  SentraCoreCreate.mk name description (spec_label <$> labels)
    (spec_connection <$> connections) (Some selected_option).

(** The dictionary [update] builds for [$set] when the clock reads [now]. *)
Definition update_dict (p : SentraCoreUpdate.t) (now : datetime) : Document :=
  <["updated_at" := VDatetime now]> (SentraCoreUpdate.model_dump_exclude_unset p).

(** A patch the record model can take: no null for a field the model
    requires to be a string or a list. *)
Definition storable (p : SentraCoreUpdate.t) : Prop :=
  SentraCoreUpdate.name p ≠ Some None
  ∧ SentraCoreUpdate.labels p ≠ Some None
  ∧ SentraCoreUpdate.connections p ≠ Some None.

(** A record after a patch was merged into it at time [now]. *)
Definition patched (p : SentraCoreUpdate.t) (now : datetime)
    (m : SentraCoreModel.t) : SentraCoreModel.t :=
  SentraCoreModel.mk (SentraCoreModel.id m)
    (match SentraCoreUpdate.name p with
     | Some (Some s) => s
     | _ => SentraCoreModel.name m
     end)
    (match SentraCoreUpdate.description p with
     | Some v => v
     | None => SentraCoreModel.description m
     end)
    (match SentraCoreUpdate.labels p with
     | Some (Some l) => l
     | _ => SentraCoreModel.labels m
     end)
    (match SentraCoreUpdate.connections p with
     | Some (Some l) => l
     | _ => SentraCoreModel.connections m
     end)
    (match SentraCoreUpdate.selected_option p with
     | Some v => v
     | None => SentraCoreModel.selected_option m
     end)
    (SentraCoreModel.created_at m)
    (bson_datetime now).

(** Store calls that are all queries by [id]. *)
Definition only_finds (id : string) (rest : list store_op) : Prop :=
  Forall (λ op, op = FindOne (VObjectId (oid_of id))) rest.

(** The collection holds the records [ms], in this order. *)
Definition holds (w : World) (ms : list SentraCoreModel.t) : Prop :=
  documents w = SentraCoreModel.model_dump_by_alias <$> ms.

(** The name of a record passes the test of a compiled expression. *)
Definition record_matches (test : string → bool) (m : SentraCoreModel.t)
    : bool :=
  test (SentraCoreModel.name m).

(** The error of a store that does not answer. *)
Definition store_down : exn := PyMongoError "ServerSelectionTimeoutError".

(** The store keeps ["_id"] unique. *)
Definition unique_ids (docs : list Document) : Prop :=
  NoDup ((λ d : Document, d !! "_id") <$> docs).

(** ** Sample data (the example of the model's schema) *)

Definition sample_labels : list LabelModel.t :=
  [ LabelModel.mk "1" "Forward" "100"
      4639481672377565184 4641240890982006784 "move";      (* 150.0, 200.0 *)
    LabelModel.mk "2" "Turn Right" "90"
      4643985272004935680 4641240890982006784 "turn" ].    (* 300.0, 200.0 *)

Definition sample_connections : list ConnectionModel.t :=
  [ ConnectionModel.mk "1-2" "1" "2" ].

Definition sample_request : SentraCoreCreate.t :=
  SentraCoreCreate.mk "Robot Movement Sequence"
    (Some "A sequence of robot movements and actions")
    sample_labels sample_connections (Some "move-forward").

(** An empty, reachable store; the clock is read 999 microseconds into a
    millisecond and advances by one microsecond per reading; identifiers are
    drawn as 0, 1, 2, ... *)
Definition sample_world : World :=
  mkWorld [] true (λ n, Z.of_nat n + 1700000000000999) 0 (λ n, N.of_nat n) 0 [].

(** The same store once [sample_request] was created in it; the record has
    the identifier [sample_id]. *)
Definition sample_world_1 : World :=
  (SentraCoreController.create_sentra_core sample_request sample_world).2.

Definition sample_id : string := "000000000000000000000000".

(** Two stored records, the older one first in the collection. *)
Definition older_record : SentraCoreModel.t :=
  SentraCoreModel.mk (Some (IdObjectId (mkObjectId (to_bytes 12 1 []))))
    "older" (Some "") [] [] (Some "") 1700000000000000 1700000000000000.

Definition newer_record : SentraCoreModel.t :=
  SentraCoreModel.mk (Some (IdObjectId (mkObjectId (to_bytes 12 2 []))))
    "newer" (Some "") sample_labels sample_connections (Some "move-forward")
    1700000000005000 1700000000007000.

Definition two_records_world : World :=
  mkWorld (SentraCoreModel.model_dump_by_alias <$> [older_record; newer_record])
    true (λ n, Z.of_nat n + 1700000000009000) 0 (λ n, N.of_nat n + 3)%N 0 [].

(** The body of a save-state request. *)
Definition sample_save_state_body : Document :=
  {[ "name" := VStr "Robot Movement Sequence";
     "labels" := VList [ {[ "id" := SStr "1"; "text" := SStr "Forward";
                            "value" := SStr "100";
                            "x" := SFloat 4639481672377565184;
                            "y" := SFloat 4641240890982006784;
                            "category" := SStr "move" ]} ];
     "connections" := VList [ {[ "id" := SStr "1-2"; "from" := SStr "1";
                                 "to" := SStr "2" ]} ];
     "selected_option" := VStr "move-forward" ]}.

(** A store that does not answer. *)
Definition unreachable_world : World :=
  mkWorld [] false (λ n, Z.of_nat n) 0 (λ n, N.of_nat n) 0 [].



(** An expression engine for the examples: every pattern compiles, and
    finds a match exactly in the strings equal to it. *)
Definition exact_regex : Regex := λ pattern, Some (λ s, bool_decide (s = pattern)).

(** A well-formed identifier no sample record has. *)
Definition other_id : string := "0123456789abcdef01234567".

Definition empty_patch : SentraCoreUpdate.t :=
  SentraCoreUpdate.mk None None None None None.

(** The patch of a request body that holds a name and nothing else. *)
Definition name_patch (name : option string) : SentraCoreUpdate.t :=
  SentraCoreUpdate.mk (Some name) None None None None.

(** * Proofs *)

Ltac run :=
  unfold wrapped, try_except, bind, ret, raise, lift, store_call,
    get_documents, put_documents, utcnow, new_ObjectId; simpl.

Section first_match.
Context (p : Document → bool).

Lemma find_split docs d :
  List.find p docs = Some d →
  ∃ l1 l2, docs = l1 ++ d :: l2 ∧ p d = true ∧ List.find p l1 = None.
Proof.
  induction docs as [|a docs IH]; simpl; [done|].
  destruct (p a) eqn:Hp.
  - intros [= ->]. by exists [], docs.
  - intros H. destruct (IH H) as (l1 & l2 & -> & ? & ?).
    exists (a :: l1), l2. simpl. by rewrite Hp.
Qed.

Lemma find_app_None l1 l2 :
  List.find p l1 = None → List.find p (l1 ++ l2) = List.find p l2.
Proof.
  induction l1 as [|a l1 IH]; simpl; [done|].
  destruct (p a); [done|]. apply IH.
Qed.

Lemma update_first_None f docs :
  List.find p docs = None → update_first p f docs = None.
Proof.
  induction docs as [|a docs IH]; simpl; [done|].
  destruct (p a); [done|]. intros H. by rewrite IH.
Qed.

Lemma update_first_split f l1 d l2 :
  List.find p l1 = None → p d = true →
  update_first p f (l1 ++ d :: l2) = Some (d, l1 ++ f d :: l2).
Proof.
  intros H1 Hd. induction l1 as [|a l1 IH]; simpl in *.
  - by rewrite Hd.
  - destruct (p a); [done|]. by rewrite IH.
Qed.

Lemma remove_first_None docs :
  List.find p docs = None → remove_first p docs = None.
Proof.
  induction docs as [|a docs IH]; simpl; [done|].
  destruct (p a); [done|]. intros H. by rewrite IH.
Qed.

Lemma remove_first_split l1 d l2 :
  List.find p l1 = None → p d = true →
  remove_first p (l1 ++ d :: l2) = Some (l1 ++ l2).
Proof.
  intros H1 Hd. induction l1 as [|a l1 IH]; simpl in *.
  - by rewrite Hd.
  - destruct (p a); [done|]. by rewrite IH.
Qed.

Lemma find_None_existsb docs :
  List.find p docs = None ↔ existsb p docs = false.
Proof.
  induction docs as [|a docs IH]; simpl; [done|].
  destruct (p a); simpl; [split; discriminate | done].
Qed.
End first_match.

Lemma has_id_lookup v d d' :
  d !! "_id" = d' !! "_id" → has_id v d = has_id v d'.
Proof. unfold has_id. by intros ->. Qed.

Lemma unique_ids_tail v l1 d l2 :
  unique_ids (l1 ++ d :: l2) → has_id v d = true →
  List.find (has_id v) l2 = None.
Proof.
  unfold unique_ids. rewrite fmap_app, fmap_cons.
  intros Hnd Hd. apply NoDup_app in Hnd as (_ & _ & Hnd).
  apply NoDup_cons in Hnd as [Hnot _].
  destruct (List.find (has_id v) l2) as [d'|] eqn:Hf; [|done].
  apply find_split in Hf as (a & b & -> & Hd' & _).
  exfalso. apply Hnot.
  unfold has_id in *. apply bool_decide_eq_true in Hd, Hd'.
  rewrite Hd, <- Hd'. rewrite fmap_app, fmap_cons. set_solver.
Qed.

Lemma find_one_run v w :
  reachable w = true →
  find_one v w = (Ok (List.find (has_id v) (documents w)), logged (FindOne v) w).
Proof. intros H. unfold find_one. run. by rewrite H. Qed.

Lemma find_one_down v w :
  reachable w = false →
  find_one v w = (Raise (PyMongoError "ServerSelectionTimeoutError"), logged (FindOne v) w).
Proof. intros H. unfold find_one. run. by rewrite H. Qed.

Lemma delete_one_run v w :
  reachable w = true →
  delete_one v w =
    (Ok (if List.find (has_id v) (documents w) is Some _ then 1 else 0),
     with_documents (remove_docs (has_id v) (documents w)) (logged (DeleteOne v) w)).
Proof.
  intros H. unfold delete_one, remove_docs. run. rewrite H. simpl.
  destruct (List.find (has_id v) (documents w)) as [d|] eqn:Hf.
  - apply find_split in Hf as (l1 & l2 & Hdocs & Hd & Hl1).
    rewrite Hdocs, remove_first_split by done. done.
  - rewrite remove_first_None by done. by destruct w.
Qed.


Lemma apply_set_lookup upd d k :
  apply_set upd d !! k =
    match upd !! k with
    | Some v => Some (bson_encode_value v)
    | None => d !! k
    end.
Proof.
  unfold apply_set, bson_encode. rewrite lookup_union, lookup_fmap.
  destruct (upd !! k); simpl; [|by rewrite (left_id None _)].
  by destruct (d !! k).
Qed.

Lemma update_docs_split p f l1 d l2 :
  List.find p l1 = None → p d = true →
  update_docs p f (l1 ++ d :: l2) = l1 ++ f d :: l2.
Proof. intros. unfold update_docs. by rewrite update_first_split. Qed.

Lemma update_docs_None p f docs :
  List.find p docs = None → update_docs p f docs = docs.
Proof. intros. unfold update_docs. by rewrite update_first_None. Qed.

Lemma update_one_run v upd w :
  reachable w = true → upd !! "_id" = None →
  update_one v upd w =
    (Ok match List.find (has_id v) (documents w) with
        | None => mkUpdateResult 0 0
        | Some d =>
            mkUpdateResult 1 (if bool_decide (apply_set upd d = d) then 0 else 1)
        end,
     with_documents (update_docs (has_id v) (apply_set upd) (documents w))
                    (logged (UpdateOne v upd) w)).
Proof.
  intros H Hid. unfold update_one, update_docs. run. rewrite H. simpl.
  destruct (List.find (has_id v) (documents w)) as [d|] eqn:Hf.
  - apply find_split in Hf as (l1 & l2 & Hdocs & Hd & Hl1).
    rewrite Hdocs, update_first_split by done.
    rewrite bool_decide_true by (by rewrite apply_set_lookup, Hid).
    case_bool_decide as Heq; [|done].
    rewrite Heq, <- Hdocs. by destruct w.
  - rewrite update_first_None by done. by destruct w.
Qed.

(** ** Identifiers *)

Lemma hex_digit_not_space c : is_hex_digit c = true → is_space c = false.
Proof.
  destruct c as [[] [] [] [] [] [] [] []]; vm_compute; congruence.
Qed.

Lemma fromhex_pair c c' top bot s :
  hex_value c = Some top → hex_value c' = Some bot →
  fromhex (c :: c' :: s) = cons (ascii_of_N (16 * top + bot)) <$> fromhex s.
Proof.
  intros Hc Hc'. cbn [fromhex].
  rewrite hex_digit_not_space by (unfold is_hex_digit; by rewrite Hc).
  by rewrite Hc, Hc'.
Qed.

(** An even number of hexadecimal digits is read as half as many bytes. *)
Lemma fromhex_digits n s :
  length s = (2 * n)%nat → forallb is_hex_digit s = true →
  ∃ bs, fromhex s = Some bs ∧ length bs = n.
Proof.
  revert s. induction n as [|n IH]; intros s Hlen Hhex.
  - destruct s; [by exists []|done].
  - destruct s as [|c [|c' s]]; simpl in Hlen; try lia.
    cbn [forallb] in Hhex.
    apply andb_prop in Hhex as [Hc Hhex]. apply andb_prop in Hhex as [Hc' Hhex].
    destruct (IH s) as (bs & Hbs & Hn); [lia|done|].
    unfold is_hex_digit in Hc, Hc'.
    destruct (hex_value c) as [top|] eqn:Htop; [|done].
    destruct (hex_value c') as [bot|] eqn:Hbot; [|done].
    rewrite (fromhex_pair c c' top bot) by done. rewrite Hbs.
    eexists. split; [done|]. simpl. by rewrite Hn.
Qed.

Lemma list_ascii_length s : length (list_ascii_of_string s) = String.length s.
Proof. induction s as [|c s IH]; simpl; [done|by rewrite IH]. Qed.

Lemma ObjectId_of_str_accepted s :
  ObjectId_is_valid s = true → ObjectId_of_str s = Ok (oid_of s).
Proof.
  unfold ObjectId_is_valid, ObjectId_of_str, oid_of.
  destruct (String.length s =? 24)%nat; [|done].
  by destruct (fromhex (list_ascii_of_string s)).
Qed.

(** The library's check holds of every well-formed identifier. *)
Lemma is_valid_accepted s : is_valid s = true → ObjectId_is_valid s = true.
Proof.
  unfold is_valid, ObjectId_is_valid, ObjectId_of_str.
  intros [Hlen Hhex]%andb_prop. rewrite Hlen.
  apply Nat.eqb_eq in Hlen.
  destruct (fromhex_digits 12 (list_ascii_of_string s)) as (bs & -> & _);
    [by rewrite list_ascii_length|done..].
Qed.

Lemma get_by_id_malformed id w :
  ObjectId_is_valid id = false →
  SentraCoreController.get_sentra_core_by_id id w
  = (Raise (Exception "Error retrieving SentraCore configuration: Invalid ObjectId format"), w).
Proof.
  intros H. unfold SentraCoreController.get_sentra_core_by_id.
  rewrite H. reflexivity.
Qed.

Lemma update_malformed id patch w :
  ObjectId_is_valid id = false →
  SentraCoreController.update_sentra_core id patch w
  = (Raise (Exception "Error updating SentraCore configuration: Invalid ObjectId format"), w).
Proof.
  intros H. unfold SentraCoreController.update_sentra_core.
  rewrite H. reflexivity.
Qed.

Lemma delete_malformed id w :
  ObjectId_is_valid id = false →
  SentraCoreController.delete_sentra_core id w
  = (Raise (Exception "Error deleting SentraCore configuration: Invalid ObjectId format"), w).
Proof.
  intros H. unfold SentraCoreController.delete_sentra_core.
  rewrite H. reflexivity.
Qed.

Lemma hex_digit_is_hex n : (n < 16)%N → is_hex_digit (hex_digit n) = true.
Proof.
  intros Hn.
  assert (Hall : forallb (λ k, is_hex_digit (hex_digit (N.of_nat k))) (seq 0 16) = true)
    by (vm_compute; reflexivity).
  rewrite forallb_forall in Hall.
  rewrite <- (N2Nat.id n). apply Hall, in_seq. lia.
Qed.

Lemma hex_value_hex_digit d : (d < 16)%N → hex_value (hex_digit d) = Some d.
Proof.
  intros Hd.
  assert (Hall : forallb (λ k, bool_decide (hex_value (hex_digit (N.of_nat k))
                                            = Some (N.of_nat k))) (seq 0 16) = true)
    by (vm_compute; reflexivity).
  rewrite forallb_forall in Hall.
  rewrite <- (N2Nat.id d). eapply bool_decide_eq_true, Hall, in_seq. lia.
Qed.

Lemma byte_high_digit b : (N_of_ascii b / 16 < 16)%N.
Proof.
  pose proof (N_ascii_bounded b). apply N.Div0.div_lt_upper_bound. lia.
Qed.

Lemma byte_digits b :
  ascii_of_N (16 * (N_of_ascii b / 16) + N_of_ascii b mod 16) = b.
Proof.
  rewrite <- N.div_mod by lia. apply ascii_N_embedding.
Qed.

Lemma hexlify_digits bs :
  forallb is_hex_digit (list_ascii_of_string (hexlify bs)) = true
  ∧ String.length (hexlify bs) = (2 * length bs)%nat.
Proof.
  induction bs as [|b bs [IH1 IH2]]; [done|]. simpl.
  rewrite !hex_digit_is_hex, IH1, IH2;
    [split; [done|lia] | apply N.mod_lt; lia | apply byte_high_digit].
Qed.

(** Reading back the text of some bytes gives the bytes. *)
Lemma fromhex_hexlify bs : fromhex (list_ascii_of_string (hexlify bs)) = Some bs.
Proof.
  induction bs as [|b bs IH]; [done|].
  change (list_ascii_of_string (hexlify (b :: bs)))
    with (hex_digit (N_of_ascii b / 16)%N :: hex_digit (N_of_ascii b mod 16)%N
          :: list_ascii_of_string (hexlify bs)).
  rewrite (fromhex_pair _ _ (N_of_ascii b / 16)%N (N_of_ascii b mod 16)%N);
    [|apply hex_value_hex_digit, byte_high_digit
     |apply hex_value_hex_digit, N.mod_lt; lia].
  by rewrite IH, byte_digits.
Qed.

Lemma oid_of_str o : oid_of (str_ObjectId o) = o.
Proof. unfold oid_of, str_ObjectId. rewrite fromhex_hexlify. by destruct o. Qed.

Lemma to_bytes_length width n acc :
  length (to_bytes width n acc) = (width + length acc)%nat.
Proof.
  revert n acc. induction width as [|width IH]; intros n acc; simpl; [done|].
  rewrite IH. simpl. lia.
Qed.

Lemma str_ObjectId_valid o :
  length (binary o) = 12%nat → is_valid (str_ObjectId o) = true.
Proof.
  intros Hlen. unfold is_valid, str_ObjectId.
  destruct (hexlify_digits (binary o)) as [H1 H2].
  by rewrite H1, H2, Hlen.
Qed.

Lemma str_next_oid_valid w : is_valid (str_ObjectId (next_oid w)) = true.
Proof. apply str_ObjectId_valid, to_bytes_length. Qed.

(** ** Dumping a model and validating the dump *)

Lemma label_roundtrip m : LabelModel.validate (LabelModel.model_dump m) = Ok m.
Proof. by destruct m. Qed.

Lemma connection_roundtrip m :
  ConnectionModel.validate (ConnectionModel.model_dump m) = Ok m.
Proof. by destruct m. Qed.

Lemma traverse_fmap {A B C} (f : B → result C) (g : A → B) (h : A → C) l :
  (∀ a, f (g a) = Ok (h a)) → traverse f (g <$> l) = Ok (h <$> l).
Proof.
  intros Hfg. induction l as [|a l IH]; [done|].
  rewrite !fmap_cons. cbn [traverse]. by rewrite Hfg, IH.
Qed.

Lemma traverse_dump {A} (f : gmap string scalar → result A) g l :
  (∀ a, f (g a) = Ok a) → traverse f (g <$> l) = Ok l.
Proof.
  intros Hfg. rewrite (traverse_fmap f g (λ a, a)) by done.
  by rewrite list_fmap_id.
Qed.

Lemma v_opt_str_value k o : v_opt_str k (opt_str_value o) = Ok o.
Proof. by destruct o. Qed.

Lemma v_id_value k i : SentraCoreModel.v_id k (SentraCoreModel.id_value i) = Ok i.
Proof. by destruct i as [[]|]. Qed.

Lemma validate_keys d w x c u :
  SentraCoreModel.lookup_id d = Some x →
  d !! "created_at" = Some c → d !! "updated_at" = Some u →
  SentraCoreModel.validate d w
  = (SentraCoreModel.assemble d (SentraCoreModel.v_id "_id" x)
       (v_datetime "created_at" c) (v_datetime "updated_at" u), w).
Proof.
  intros Hx Hc Hu. unfold SentraCoreModel.validate.
  by rewrite Hx, Hc, Hu.
Qed.

Lemma validate_dump m w :
  SentraCoreModel.validate (SentraCoreModel.model_dump_by_alias m) w = (Ok m, w).
Proof.
  rewrite (validate_keys _ _ (SentraCoreModel.id_value (SentraCoreModel.id m))
             (VDatetime (SentraCoreModel.created_at m))
             (VDatetime (SentraCoreModel.updated_at m))) by done.
  unfold SentraCoreModel.assemble, required, with_default.
  rewrite v_id_value. simpl.
  change (SentraCoreModel.model_dump_by_alias m !! "name")
    with (Some (VStr (SentraCoreModel.name m))).
  change (SentraCoreModel.model_dump_by_alias m !! "description")
    with (Some (opt_str_value (SentraCoreModel.description m))).
  change (SentraCoreModel.model_dump_by_alias m !! "labels")
    with (Some (VList (LabelModel.model_dump <$> SentraCoreModel.labels m))).
  change (SentraCoreModel.model_dump_by_alias m !! "connections")
    with (Some (VList (ConnectionModel.model_dump <$> SentraCoreModel.connections m))).
  change (SentraCoreModel.model_dump_by_alias m !! "selected_option")
    with (Some (opt_str_value (SentraCoreModel.selected_option m))).
  simpl. rewrite !v_opt_str_value.
  rewrite (traverse_dump _ _ _ label_roundtrip).
  rewrite (traverse_dump _ _ _ connection_roundtrip).
  simpl. by destruct m.
Qed.

Lemma bson_encode_id_value i :
  bson_encode_value (SentraCoreModel.id_value i) = SentraCoreModel.id_value i.
Proof. by destruct i as [[]|]. Qed.

Lemma bson_encode_opt_str o : bson_encode_value (opt_str_value o) = opt_str_value o.
Proof. by destruct o. Qed.

Lemma bson_encode_dump m :
  bson_encode (SentraCoreModel.model_dump_by_alias m)
  = SentraCoreModel.model_dump_by_alias (as_stored m).
Proof.
  unfold bson_encode, SentraCoreModel.model_dump_by_alias.
  rewrite !fmap_insert, map_fmap_singleton. simpl.
  by rewrite bson_encode_id_value, !bson_encode_opt_str.
Qed.

(** ** The repository, operation by operation *)

Lemma find_last p (docs : list Document) d :
  List.find p docs = None → p d = true → List.find p (docs ++ [d]) = Some d.
Proof. intros H Hd. rewrite find_app_None by done. simpl. by rewrite Hd. Qed.

Lemma has_id_encoded v doc :
  doc !! "_id" = Some v → has_id v (bson_encode doc) = true.
Proof.
  intros H. unfold has_id, bson_encode. rewrite lookup_fmap, H.
  by apply bool_decide_eq_true.
Qed.

Lemma insert_one_run doc v w :
  doc !! "_id" = Some v → reachable w = true →
  List.find (has_id v) (documents w) = None →
  insert_one doc w
  = (Ok v, with_documents (documents w ++ [bson_encode doc])
             (logged (InsertOne doc) w)).
Proof.
  intros Hid Hr Hfresh. unfold insert_one. rewrite Hid. run.
  rewrite Hr. simpl. rewrite insert_id by done.
  apply find_None_existsb in Hfresh. by rewrite Hfresh.
Qed.

Lemma create_run data w :
  reachable w = true →
  List.find (has_id (VObjectId (next_oid w))) (documents w) = None →
  SentraCoreController.create_sentra_core data w
  = (Ok (as_stored (new_record data w)), after_create data w).
Proof.
  intros Hr Hfresh.
  unfold SentraCoreController.create_sentra_core, wrapped, try_except, bind,
    new_ObjectId, utcnow.
  fold (new_record data w).
  erewrite insert_one_run; [|reflexivity|done|done].
  rewrite find_one_run by done. simpl documents.
  rewrite find_last; [|done|by apply has_id_encoded].
  unfold SentraCoreModel.of_query.
  rewrite bson_encode_dump, validate_dump. f_equal.
  unfold after_create. do 4 f_equal. apply (bson_encode_dump (new_record data w)).
Qed.

Lemma entry_lookup {A} k' k (f : option A) to_value d :
  SentraCoreUpdate.entry k f to_value d !! k'
  = if decide (k = k')
    then match f with Some a => Some (to_value a) | None => d !! k' end
    else d !! k'.
Proof.
  unfold SentraCoreUpdate.entry. destruct f; case_decide; subst;
    by rewrite ?lookup_insert_eq, ?lookup_insert_ne.
Qed.

Lemma entry_dom {A} k (f : option A) to_value d :
  dom (SentraCoreUpdate.entry k f to_value d)
  = SentraCoreUpdate.key_if_set k f ∪ dom d.
Proof.
  unfold SentraCoreUpdate.entry, SentraCoreUpdate.key_if_set.
  destruct f; [apply dom_insert_L | set_solver].
Qed.

Lemma model_dump_exclude_unset_dom p :
  dom (SentraCoreUpdate.model_dump_exclude_unset p) = SentraCoreUpdate.fields_set p.
Proof.
  unfold SentraCoreUpdate.model_dump_exclude_unset, SentraCoreUpdate.fields_set.
  rewrite !entry_dom, dom_empty_L. set_solver.
Qed.

Lemma fields_set_subseteq p :
  SentraCoreUpdate.fields_set p
  ⊆ {[ "name"; "description"; "labels"; "connections"; "selected_option" ]}.
Proof.
  unfold SentraCoreUpdate.fields_set, SentraCoreUpdate.key_if_set.
  destruct p as [[?|] [?|] [?|] [?|] [?|]]; simpl; set_solver.
Qed.

(** The dictionary [update] hands to the store. *)
Lemma update_dict_dom p now :
  dom (update_dict p now) = SentraCoreUpdate.fields_set p ∪ {[ "updated_at" ]}.
Proof.
  unfold update_dict. rewrite dom_insert_L, model_dump_exclude_unset_dom.
  set_solver.
Qed.

Lemma update_dict_lacks p now k :
  k ∉ SentraCoreUpdate.fields_set p → k ≠ "updated_at" →
  update_dict p now !! k = None.
Proof.
  intros Hk Hne. apply not_elem_of_dom. rewrite update_dict_dom. set_solver.
Qed.

Lemma not_a_patch_field p k :
  k ≠ "name" → k ≠ "description" → k ≠ "labels" → k ≠ "connections" →
  k ≠ "selected_option" → k ∉ SentraCoreUpdate.fields_set p.
Proof. intros. pose proof (fields_set_subseteq p). set_solver. Qed.

Lemma truthy_has_id v d : has_id v d = true → truthy d = true.
Proof.
  unfold has_id, truthy. intros H%bool_decide_eq_true.
  apply bool_decide_eq_true. intros ->. by rewrite lookup_empty in H.
Qed.

Lemma get_run id w :
  ObjectId_is_valid id = true → reachable w = true →
  SentraCoreController.get_sentra_core_by_id id w
  = match stored id w with
    | Some d =>
        wrapped "Error retrieving SentraCore configuration: "
          (do m <- SentraCoreModel.validate d; ret (Some m))
          (logged (FindOne (VObjectId (oid_of id))) w)
    | None => (Ok None, logged (FindOne (VObjectId (oid_of id))) w)
    end.
Proof.
  intros Hid Hr. unfold SentraCoreController.get_sentra_core_by_id, stored.
  rewrite Hid, ObjectId_of_str_accepted by done.
  unfold wrapped, try_except, bind, lift. unfold negb. cbv iota beta.
  rewrite find_one_run by done. fold (oid_of id).
  destruct (List.find _ _) as [d|] eqn:Hf; [|done].
  apply find_split in Hf as (? & ? & _ & Hd & _).
  by rewrite (truthy_has_id _ _ Hd).
Qed.

Lemma get_down id w :
  ObjectId_is_valid id = true → reachable w = false →
  SentraCoreController.get_sentra_core_by_id id w
  = (Raise (Exception "Error retrieving SentraCore configuration: ServerSelectionTimeoutError"),
     logged (FindOne (VObjectId (oid_of id))) w).
Proof.
  intros Hid Hr. unfold SentraCoreController.get_sentra_core_by_id.
  rewrite Hid, ObjectId_of_str_accepted by done.
  unfold find_one. run. by rewrite Hr.
Qed.

Lemma delete_run id w :
  ObjectId_is_valid id = true → reachable w = true →
  SentraCoreController.delete_sentra_core id w
  = (Ok (bool_decide (is_Some (stored id w))),
     with_documents (remove_docs (has_id (VObjectId (oid_of id))) (documents w))
       (logged (DeleteOne (VObjectId (oid_of id))) w)).
Proof.
  intros Hid Hr. unfold SentraCoreController.delete_sentra_core, stored.
  rewrite Hid, ObjectId_of_str_accepted by done.
  unfold wrapped, try_except, bind, lift. unfold negb. cbv iota beta.
  rewrite delete_one_run by done. fold (oid_of id).
  by destruct (List.find _ _).
Qed.

(** The world after the store call of [update], and what it reports. *)
Lemma update_run id p w :
  ObjectId_is_valid id = true → reachable w = true →
  let upd := update_dict p (clock w (ticks w)) in
  let w1 := with_documents
              (update_docs (has_id (VObjectId (oid_of id))) (apply_set upd)
                           (documents w))
              (logged (UpdateOne (VObjectId (oid_of id)) upd) (tick w)) in
  SentraCoreController.update_sentra_core id p w
  = match stored id w with
    | Some d =>
        if bool_decide (apply_set upd d = d) then (Ok None, w1)
        else wrapped "Error updating SentraCore configuration: "
               (do m <- SentraCoreModel.validate (apply_set upd d); ret (Some m))
               (logged (FindOne (VObjectId (oid_of id))) w1)
    | None => (Ok None, w1)
    end.
Proof.
  intros Hid Hr upd w1.
  unfold SentraCoreController.update_sentra_core, stored.
  rewrite Hid, ObjectId_of_str_accepted by done.
  unfold wrapped, try_except, bind, lift, utcnow. unfold negb. cbv iota beta.
  fold (oid_of id). fold (update_dict p (clock w (ticks w))). fold upd.
  rewrite update_one_run;
    [|done|by apply update_dict_lacks; [apply not_a_patch_field|]].
  fold w1. simpl documents.
  destruct (List.find _ _) as [d|] eqn:Hf; [|done].
  case_bool_decide as Heq; [done|].
  change (modified_count _ =? 0) with false. cbv iota beta.
  rewrite find_one_run by done.
  apply find_split in Hf as (l1 & l2 & Hdocs & Hd & Hl1).
  change (documents (tick w)) with (documents w) in Hdocs.
  assert (Hd' : has_id (VObjectId (oid_of id)) (apply_set upd d) = true).
  { rewrite <- Hd. apply has_id_lookup. rewrite apply_set_lookup. unfold upd.
    by rewrite update_dict_lacks by (by try apply not_a_patch_field). }
  subst w1. simpl documents. rewrite Hdocs, update_docs_split by done.
  rewrite find_app_None by done. simpl. rewrite Hd'. reflexivity.
Qed.

(** * The claims *)

(** ** C1: a malformed identifier

    C1 says that [get_by_id], [update] and [delete] on a malformed identifier
    fail with a validation error answered with HTTP 400, before any store
    access, and never with 500.  On every identifier the library's check
    refuses, none of which is well formed, the validation does come first:
    the world, and the log of store calls in it, is untouched.  But the
    repository re-raises its own [ValueError] as a plain [Exception], which
    the routes' [except ValueError] clause does not catch: all three
    endpoints answer 500. *)
Theorem malformed_id_answered_500 id raw patch w :
  ObjectId_is_valid id = false →
  SentraCoreUpdate.validate raw = Ok patch →
  is_valid id = false
  ∧ routes.get_sentra_core id w
    = (mkResponse 500 (CDetail "Error retrieving SentraCore configuration: Invalid ObjectId format"), w)
  ∧ routes.update_sentra_core id raw w
    = (mkResponse 500 (CDetail "Error updating SentraCore configuration: Invalid ObjectId format"), w)
  ∧ routes.delete_sentra_core id w
    = (mkResponse 500 (CDetail "Error deleting SentraCore configuration: Invalid ObjectId format"), w).
Proof.
  intros Hid Hraw. split; [|repeat split].
  - destruct (is_valid id) eqn:Hwf; [|done].
    apply is_valid_accepted in Hwf. congruence.
  - unfold routes.get_sentra_core, respond, routes.except_400_500, try_except, bind.
    rewrite get_by_id_malformed by done. reflexivity.
  - unfold routes.update_sentra_core, respond, routes.except_400_500, try_except, bind, parse_body.
    rewrite Hraw. unfold ret. rewrite update_malformed by done. reflexivity.
  - unfold routes.delete_sentra_core, respond, routes.except_400_500, try_except, bind.
    rewrite delete_malformed by done. reflexivity.
Qed.

Lemma malformed_id_answered_500_witness :
  routes.get_sentra_core "abc" sample_world_1
  = (mkResponse 500
       (CDetail "Error retrieving SentraCore configuration: Invalid ObjectId format"),
     sample_world_1)
  ∧ routes.update_sentra_core "abc" ∅ sample_world_1
    = (mkResponse 500
         (CDetail "Error updating SentraCore configuration: Invalid ObjectId format"),
       sample_world_1)
  ∧ routes.delete_sentra_core "abc" sample_world_1
    = (mkResponse 500
         (CDetail "Error deleting SentraCore configuration: Invalid ObjectId format"),
       sample_world_1).
Proof.
  apply (malformed_id_answered_500 "abc" ∅ empty_patch sample_world_1);
    reflexivity.
Defined.

(** The library's check is wider than well-formedness: it takes a string of
    24 characters in which white space stands between pairs of digits.  Such
    a string denotes fewer than twelve bytes, and the store is queried for
    them. *)
Example spaced_id_reaches_store :
  let id := "00 11 22 33 44 55 66 77 " in
  is_valid id = false
  ∧ ObjectId_is_valid id = true
  ∧ length (binary (oid_of id)) = 8%nat
  ∧ length (store_log (routes.get_sentra_core id sample_world_1).2)
    = S (length (store_log sample_world_1)).
Proof. vm_compute. done. Qed.

(** ** C2: a well-formed identifier that matches nothing *)

Lemma update_absent id p w :
  is_valid id = true → reachable w = true → stored id w = None →
  (SentraCoreController.update_sentra_core id p w).1 = Ok None.
Proof. intros Hid Hr Hs. pose proof (is_valid_accepted _ Hid) as Hacc. rewrite update_run by done. by rewrite Hs. Qed.

(** C2 says that GET, PUT and DELETE on a well-formed identifier that
    matches no record answer 404, set apart from unexpected failures, which
    answer 500.  The repository does return an explicit absent result
    ([None], [False]) and no error.  But each route raises its 404 inside the
    [try] whose [except Exception] clause catches it and raises a 500 in its
    place: the three endpoints answer 500, exactly as they do when the store
    does not respond. *)
Theorem absent_record_answered_500 id raw patch w w_down :
  is_valid id = true → reachable w = true → stored id w = None →
  SentraCoreUpdate.validate raw = Ok patch →
  reachable w_down = false →
  (SentraCoreController.get_sentra_core_by_id id w).1 = Ok None
  ∧ (SentraCoreController.update_sentra_core id patch w).1 = Ok None
  ∧ (SentraCoreController.delete_sentra_core id w).1 = Ok false
  ∧ status_code (routes.get_sentra_core id w).1 = 500%nat
  ∧ status_code (routes.update_sentra_core id raw w).1 = 500%nat
  ∧ status_code (routes.delete_sentra_core id w).1 = 500%nat
  ∧ status_code (routes.get_sentra_core id w_down).1 = 500%nat.
Proof.
  intros Hid Hr Hs Hraw Hdown. pose proof (is_valid_accepted _ Hid) as Hacc.
  assert (Hget : SentraCoreController.get_sentra_core_by_id id w
                 = (Ok None, logged (FindOne (VObjectId (oid_of id))) w))
    by (rewrite get_run by done; by rewrite Hs).
  assert (Hdel : (SentraCoreController.delete_sentra_core id w).1 = Ok false)
    by (rewrite delete_run by done; by rewrite Hs).
  pose proof (update_absent id patch w Hid Hr Hs) as Hupd.
  repeat split; try done.
  - by rewrite Hget.
  - unfold routes.get_sentra_core, respond, routes.except_400_500, try_except, bind.
    by rewrite Hget.
  - unfold routes.update_sentra_core, respond, routes.except_400_500,
      try_except, bind, parse_body.
    rewrite Hraw. unfold ret at 1.
    destruct (SentraCoreController.update_sentra_core id patch w) as [r w'].
    simpl in Hupd. by subst r.
  - unfold routes.delete_sentra_core, respond, routes.except_400_500,
      try_except, bind.
    destruct (SentraCoreController.delete_sentra_core id w) as [r w'].
    simpl in Hdel. by subst r.
  - unfold routes.get_sentra_core, respond, routes.except_400_500, try_except, bind.
    by rewrite get_down.
Qed.

Lemma absent_record_answered_500_witness :
  (SentraCoreController.get_sentra_core_by_id other_id sample_world_1).1 = Ok None
  ∧ status_code (routes.get_sentra_core other_id sample_world_1).1 = 500%nat
  ∧ status_code (routes.delete_sentra_core other_id sample_world_1).1 = 500%nat.
Proof.
  destruct (absent_record_answered_500 other_id ∅ empty_patch sample_world_1
              unreachable_world)
    as (Hget & _ & _ & Hroute & _ & Hdelete & _); try reflexivity.
  repeat split; assumption.
Defined.

(** ** C3: what [create] returns *)

Lemma bson_datetime_mono t1 t2 : t1 ≤ t2 → bson_datetime t1 ≤ bson_datetime t2.
Proof.
  intros H. unfold bson_datetime.
  pose proof (Z.div_le_mono t1 t2 1000 ltac:(lia) H). lia.
Qed.

(** C3 as stated asks for [created_at == updated_at].  The two fields have
    a default factory each, so the clock is read twice; on [sample_world] the
    readings fall on the two sides of a millisecond boundary and the returned
    timestamps differ. *)
Lemma create_timestamps_differ :
  ∃ m w',
    SentraCoreController.create_sentra_core sample_request sample_world = (Ok m, w')
    ∧ SentraCoreModel.created_at m ≠ SentraCoreModel.updated_at m.
Proof.
  exists (as_stored (new_record sample_request sample_world)),
         (after_create sample_request sample_world).
  split; [by apply create_run|]. vm_compute. discriminate.
Qed.

(** C3, amended: on a store that responds and for a fresh identifier,
    [create] returns a record whose id is a well-formed 24-hex identifier,
    whose name, description, labels, connections and selected option are
    those of the request, labels and connections in the order given, and
    whose [created_at] and [updated_at] are the two successive clock readings
    in whole milliseconds: equal when both readings fall in the same
    millisecond, and in order when the clock does not run backwards. *)
Theorem create_returns_request (data : SentraCoreCreate.t) (w : World) :
  reachable w = true →
  List.find (has_id (VObjectId (next_oid w))) (documents w) = None →
  ∃ m w',
    SentraCoreController.create_sentra_core data w = (Ok m, w')
    ∧ (∃ o, SentraCoreModel.id m = Some (IdObjectId o)
            ∧ is_valid (str_ObjectId o) = true)
    ∧ SentraCoreModel.created_at m = bson_datetime (clock w (ticks w))
    ∧ SentraCoreModel.updated_at m = bson_datetime (clock w (S (ticks w)))
    ∧ (clock w (ticks w) / 1000 = clock w (S (ticks w)) / 1000 →
       SentraCoreModel.created_at m = SentraCoreModel.updated_at m)
    ∧ (clock w (ticks w) ≤ clock w (S (ticks w)) →
       SentraCoreModel.created_at m ≤ SentraCoreModel.updated_at m)
    ∧ SentraCoreModel.name m = SentraCoreCreate.name data
    ∧ SentraCoreModel.description m = SentraCoreCreate.description data
    ∧ SentraCoreModel.labels m = SentraCoreCreate.labels data
    ∧ SentraCoreModel.connections m = SentraCoreCreate.connections data
    ∧ SentraCoreModel.selected_option m = SentraCoreCreate.selected_option data.
Proof.
  intros Hr Hfresh.
  exists (as_stored (new_record data w)), (after_create data w).
  split; [by apply create_run|].
  split; [exists (next_oid w); split; [done|apply str_next_oid_valid]|].
  simpl. repeat split.
  - unfold bson_datetime. by intros ->.
  - apply bson_datetime_mono.
Qed.

Lemma create_returns_request_witness :
  ∃ m w',
    SentraCoreController.create_sentra_core sample_request sample_world = (Ok m, w')
    ∧ (∃ o, SentraCoreModel.id m = Some (IdObjectId o)
            ∧ is_valid (str_ObjectId o) = true)
    ∧ SentraCoreModel.created_at m = 1700000000000000
    ∧ SentraCoreModel.updated_at m = 1700000000001000
    ∧ SentraCoreModel.name m = "Robot Movement Sequence"
    ∧ SentraCoreModel.labels m = sample_labels
    ∧ SentraCoreModel.connections m = sample_connections.
Proof.
  destruct (create_returns_request sample_request sample_world)
    as (m & w' & Hrun & Hid & Hc & Hu & _ & _ & Hn & _ & Hl & Hcn & _);
    [reflexivity | reflexivity |].
  exists m, w'. repeat split; assumption.
Defined.

(** ** C6: [delete] *)

Lemma remove_docs_split p l1 d l2 :
  List.find p l1 = None → p d = true →
  remove_docs p (l1 ++ d :: l2) = l1 ++ l2.
Proof. intros. unfold remove_docs. by rewrite remove_first_split. Qed.

Lemma remove_docs_None p docs :
  List.find p docs = None → remove_docs p docs = docs.
Proof. intros. unfold remove_docs. by rewrite remove_first_None. Qed.

(** C6: on a store that responds and keeps identifiers unique, [delete] of
    a well-formed identifier returns true exactly when a record with that
    identifier was stored, and that record (and nothing else) is then gone;
    it returns false, without an error and without touching the collection,
    when nothing matched.  Either way a following [get_by_id] returns the
    absent result and a second [delete] returns false. *)
Theorem delete_removes id w :
  is_valid id = true → reachable w = true → unique_ids (documents w) →
  ∃ b w',
    SentraCoreController.delete_sentra_core id w = (Ok b, w')
    ∧ (b = true ↔ is_Some (stored id w))
    ∧ (b = true →
       ∃ d l1 l2, stored id w = Some d
                  ∧ documents w = l1 ++ d :: l2 ∧ documents w' = l1 ++ l2)
    ∧ (b = false → documents w' = documents w)
    ∧ stored id w' = None
    ∧ (SentraCoreController.get_sentra_core_by_id id w').1 = Ok None
    ∧ (SentraCoreController.delete_sentra_core id w').1 = Ok false.
Proof.
  intros Hid Hr Hu. pose proof (is_valid_accepted _ Hid) as Hacc. eexists _, _. split; [by apply delete_run|].
  set (p := has_id (VObjectId (oid_of id))).
  set (w' := with_documents _ _).
  assert (Hr' : reachable w' = true) by done.
  assert (Hgone : stored id w' = None).
  { unfold stored. subst w'. simpl documents. fold p.
    destruct (List.find p (documents w)) as [d|] eqn:Hf.
    - apply find_split in Hf as (l1 & l2 & Hdocs & Hd & Hl1).
      rewrite Hdocs in Hu |- *. rewrite remove_docs_split by done.
      rewrite find_app_None by done. by apply (unique_ids_tail _ l1 d).
    - by rewrite remove_docs_None. }
  split; [apply bool_decide_eq_true|].
  split.
  { intros Hb%bool_decide_eq_true. destruct Hb as [d Hd]. unfold stored in Hd.
    destruct (find_split _ _ _ Hd) as (l1 & l2 & Hdocs & Hpd & Hl1).
    exists d, l1, l2. repeat split; [done..|].
    subst w'. simpl documents. fold p. rewrite Hdocs.
    by apply remove_docs_split. }
  split.
  { intros Hb%bool_decide_eq_false. subst w'. simpl documents.
    apply remove_docs_None. unfold stored in Hb.
    destruct (List.find _ _) eqn:Hf; [|done]. by destruct Hb. }
  split; [done|]. split.
  - rewrite get_run by done. by rewrite Hgone.
  - rewrite delete_run by done. by rewrite Hgone.
Qed.

Lemma delete_removes_witness :
  ∃ b w',
    SentraCoreController.delete_sentra_core sample_id sample_world_1 = (Ok b, w')
    ∧ stored sample_id w' = None
    ∧ (SentraCoreController.get_sentra_core_by_id sample_id w').1 = Ok None
    ∧ (SentraCoreController.delete_sentra_core sample_id w').1 = Ok false.
Proof.
  destruct (delete_removes sample_id sample_world_1)
    as (b & w' & Hrun & _ & _ & _ & Hgone & Hget & Hdel).
  - reflexivity.
  - reflexivity.
  - unfold unique_ids. vm_compute. apply NoDup_cons. split; [|constructor].
    intros H. inversion H.
  - exists b, w'. repeat split; assumption.
Defined.

(** ** C7: the paginated list *)

#[global] Instance created_at_desc_total : Total created_at_desc.
Proof.
  intros d1 d2. unfold created_at_desc, key_le.
  destruct (created_at_key d1), (created_at_key d2); simpl; auto; lia.
Qed.

#[global] Instance created_at_desc_trans : Transitive created_at_desc.
Proof.
  intros d1 d2 d3. unfold created_at_desc, key_le.
  destruct (created_at_key d1), (created_at_key d2), (created_at_key d3);
    simpl; auto; try lia; tauto.
Qed.

Lemma created_at_desc_dump a b :
  created_at_desc (SentraCoreModel.model_dump_by_alias a)
                  (SentraCoreModel.model_dump_by_alias b)
  → newest_first a b.
Proof. done. Qed.

Lemma StronglySorted_fmap_inv {A B} (f : A → B) (R1 : relation A)
    (R2 : relation B) l :
  (∀ x y, R2 (f x) (f y) → R1 x y) →
  StronglySorted R2 (f <$> l) → StronglySorted R1 l.
Proof.
  intros Hf. induction l as [|a l IH]; [constructor|].
  rewrite fmap_cons. intros [Hl Ha]%StronglySorted_inv.
  constructor; [by apply IH|].
  rewrite Forall_fmap in Ha. eapply Forall_impl; [exact Ha|].
  intros y Hy. by apply Hf.
Qed.

Lemma Permutation_fmap_inv {A B} (f : A → B) (k : list B) (l : list A) :
  k ≡ₚ f <$> l → ∃ l', k = f <$> l' ∧ l' ≡ₚ l.
Proof.
  intros H. destruct (Permutation_map_inv f l H) as (l' & -> & Hl').
  exists l'. split; [done|by symmetry].
Qed.

Lemma traverseM_dump ms w :
  traverseM SentraCoreModel.validate (SentraCoreModel.model_dump_by_alias <$> ms) w
  = (Ok ms, w).
Proof.
  induction ms as [|m ms IH]; [done|].
  rewrite fmap_cons. cbn [traverseM]. unfold bind.
  by rewrite validate_dump, IH.
Qed.

Lemma encode_int64_fits skip limit w :
  skip ≤ MAX_INT64 → limit ≤ MAX_INT64 → encode_int64 skip limit w = (Ok (), w).
Proof.
  intros Hs Hl. unfold encode_int64.
  destruct (Z.ltb_spec MAX_INT64 skip); [lia|].
  destruct (Z.ltb_spec MAX_INT64 limit); [lia|]. done.
Qed.

Lemma encode_int64_overflow skip limit w :
  MAX_INT64 < skip ∨ MAX_INT64 < limit →
  encode_int64 skip limit w
  = (Raise (OverflowError "MongoDB can only handle up to 8-byte ints"), w).
Proof.
  intros H. unfold encode_int64.
  destruct (Z.ltb_spec MAX_INT64 skip); [done|].
  destruct (Z.ltb_spec MAX_INT64 limit); [done|]. lia.
Qed.

Lemma find_sorted_run skip limit w :
  reachable w = true → 0 ≤ skip ≤ MAX_INT64 → 0 ≤ limit ≤ MAX_INT64 →
  find_sorted skip limit w
  = (Ok (take (Z.to_nat limit)
           (drop (Z.to_nat skip) (merge_sort created_at_desc (documents w)))),
     logged (Find skip limit) w).
Proof.
  intros Hr Hs Hl. unfold find_sorted.
  destruct (Z.ltb_spec skip 0); [lia|]. destruct (Z.ltb_spec limit 0); [lia|].
  unfold bind, store_call. rewrite Hr.
  by rewrite encode_int64_fits by lia.
Qed.

Lemma find_sorted_overflow skip limit w :
  reachable w = true → 0 ≤ skip → 0 ≤ limit →
  MAX_INT64 < skip ∨ MAX_INT64 < limit →
  find_sorted skip limit w
  = (Raise (OverflowError "MongoDB can only handle up to 8-byte ints"),
     logged (Find skip limit) w).
Proof.
  intros Hr Hs Hl Hover. unfold find_sorted.
  destruct (Z.ltb_spec skip 0); [lia|]. destruct (Z.ltb_spec limit 0); [lia|].
  unfold bind, store_call. rewrite Hr.
  by rewrite encode_int64_overflow.
Qed.

(** C7 as stated covers every [skip] the endpoint accepts, and the endpoint
    puts no upper bound on [skip].  The driver encodes integers in at most
    eight bytes: from [2 ^ 63] on, it raises instead of sending the query,
    and the endpoint answers 500. *)
Lemma list_skip_overflows :
  Query (Some (MAX_INT64 + 1)) 0 0 None two_records_world
  = (Ok (MAX_INT64 + 1), two_records_world)
  ∧ match (SentraCoreController.get_all_sentra_core (MAX_INT64 + 1) 100
             two_records_world).1 with
    | Raise (Exception _) => True
    | _ => False
    end
  ∧ status_code (routes.get_all_sentra_core (Some (MAX_INT64 + 1)) (Some 100)
                   two_records_world).1 = 500%nat.
Proof. split; [reflexivity|]. split; vm_compute; [exact I | reflexivity]. Qed.

(** C7, amended: on a store that responds and holds the records [ms], there
    is an arrangement [sorted] of [ms], most recent [created_at] first, such
    that the list operation returns the first [limit] records of [sorted]
    after its first [skip] ones, for every [skip] and [limit] from 0 up to
    the largest integer of eight bytes.  The endpoint accepts [skip ≥ 0] and
    [1 ≤ limit ≤ 1000], defaulting to 0 and 100, and refuses anything else
    before the repository is called; a [skip] it accepts beyond eight bytes
    is answered 500, the collection left as it was. *)
Theorem list_sorted_page (ms : list SentraCoreModel.t) (w : World) (skip limit : Z) :
  reachable w = true →
  documents w = SentraCoreModel.model_dump_by_alias <$> ms →
  ∃ sorted,
    sorted ≡ₚ ms
    ∧ StronglySorted newest_first sorted
    ∧ let page := take (Z.to_nat limit) (drop (Z.to_nat skip) sorted) in
      (length page ≤ Z.to_nat limit)%nat
      ∧ (0 ≤ skip ≤ MAX_INT64 → 0 ≤ limit ≤ MAX_INT64 →
         SentraCoreController.get_all_sentra_core skip limit w
         = (Ok page, logged (Find skip limit) w))
      ∧ (0 ≤ skip ≤ MAX_INT64 → 1 ≤ limit ≤ 1000 →
         routes.get_all_sentra_core (Some skip) (Some limit) w
         = (mkResponse 200 (CModels page), logged (Find skip limit) w))
      ∧ (MAX_INT64 < skip → 1 ≤ limit ≤ 1000 →
         status_code (routes.get_all_sentra_core (Some skip) (Some limit) w).1
         = 500%nat
         ∧ documents (routes.get_all_sentra_core (Some skip) (Some limit) w).2
           = documents w)
      ∧ (skip < 0 ∨ limit < 1 ∨ 1000 < limit →
         ∃ msg, routes.get_all_sentra_core (Some skip) (Some limit) w
                = (mkResponse 422 (CDetail msg), w))
      ∧ routes.get_all_sentra_core None None w
        = routes.get_all_sentra_core (Some 0) (Some 100) w.
Proof.
  intros Hr Hdocs.
  destruct (Permutation_fmap_inv SentraCoreModel.model_dump_by_alias
              (merge_sort created_at_desc (documents w)) ms)
    as (sorted & Hsorted & Hperm).
  { rewrite <- Hdocs. apply merge_sort_Permutation. }
  exists sorted. split; [done|]. split.
  { apply (StronglySorted_fmap_inv SentraCoreModel.model_dump_by_alias _
             created_at_desc); [apply created_at_desc_dump|].
    rewrite <- Hsorted. apply StronglySorted_merge_sort; apply _. }
  assert (Hrepo : ∀ s l, 0 ≤ s ≤ MAX_INT64 → 0 ≤ l ≤ MAX_INT64 →
            SentraCoreController.get_all_sentra_core s l w
            = (Ok (take (Z.to_nat l) (drop (Z.to_nat s) sorted)),
               logged (Find s l) w)).
  { intros s l Hs Hl. unfold SentraCoreController.get_all_sentra_core,
      wrapped, try_except, bind.
    rewrite find_sorted_run, Hsorted by done.
    by rewrite <- fmap_drop, <- fmap_take, traverseM_dump. }
  cbv zeta. split; [rewrite length_take; lia|].
  split; [apply Hrepo|]. split; [|split; [|split]].
  - intros Hs [Hl1 Hl2]. unfold routes.get_all_sentra_core, respond, bind, Query.
    destruct (Z.ltb_spec skip 0); [lia|]. destruct (Z.ltb_spec limit 1); [lia|].
    destruct (Z.ltb_spec 1000 limit); [lia|].
    unfold ret at 1 2, try_except.
    by rewrite Hrepo by (unfold MAX_INT64 in *; lia).
  - intros Hs [Hl1 Hl2]. unfold MAX_INT64 in Hs.
    assert (Hroute : ∃ detail,
              routes.get_all_sentra_core (Some skip) (Some limit) w
              = (mkResponse 500 (CDetail detail), logged (Find skip limit) w)).
    { unfold routes.get_all_sentra_core, respond, bind, Query.
      destruct (Z.ltb_spec skip 0); [lia|]. destruct (Z.ltb_spec limit 1); [lia|].
      destruct (Z.ltb_spec 1000 limit); [lia|].
      unfold ret at 1 2, try_except.
      unfold SentraCoreController.get_all_sentra_core, wrapped, try_except, bind.
      rewrite find_sorted_overflow by (done || (unfold MAX_INT64; lia)).
      by eexists. }
    destruct Hroute as [detail ->]. done.
  - intros Hbad. unfold routes.get_all_sentra_core, respond, bind, Query.
    destruct (Z.ltb_spec skip 0); [by eexists|].
    destruct (Z.ltb_spec limit 1); [by eexists|].
    destruct (Z.ltb_spec 1000 limit); [by eexists|]. lia.
  - reflexivity.
Qed.

Lemma list_sorted_page_witness :
  ∃ sorted,
    sorted ≡ₚ [older_record; newer_record]
    ∧ StronglySorted newest_first sorted
    ∧ routes.get_all_sentra_core (Some 0) (Some 1) two_records_world
      = (mkResponse 200 (CModels (take 1 sorted)),
         logged (Find 0 1) two_records_world).
Proof.
  destruct (list_sorted_page [older_record; newer_record] two_records_world 0 1)
    as (sorted & Hperm & Hsorted & _ & _ & Hroute & _);
    [reflexivity | reflexivity |].
  exists sorted. repeat split; [assumption..|].
  apply Hroute; unfold MAX_INT64; lia.
Defined.

(** ** C8: the frontend save is [create] after a translation *)

Lemma converted_labels_validate labels :
  traverse LabelModel.validate
    ((λ label, {[ "id" := SStr (FrontendLabel.id label);
                  "text" := SStr (FrontendLabel.text label);
                  "value" := SStr (FrontendLabel.value label);
                  "x" := SFloat (FrontendLabel.x label);
                  "y" := SFloat (FrontendLabel.y label);
                  "category" := SStr (FrontendLabel.category label) ]})
     <$> labels)
  = Ok (spec_label <$> labels).
Proof. by apply traverse_fmap. Qed.

Lemma converted_connections_validate connections :
  traverse ConnectionModel.validate
    ((λ connection,
        {[ "id" := SStr (FrontendConnection.id connection);
           "from_id" := SStr (FrontendConnection.from_ connection);
           "to_id" := SStr (FrontendConnection.to connection) ]})
     <$> connections)
  = Ok (spec_connection <$> connections).
Proof. by apply traverse_fmap. Qed.

Lemma save_current_state_run name labels connections selected_option description :
  SentraCoreController.save_current_state name labels connections
    selected_option description
  = wrapped "Error saving current state: "
      (SentraCoreController.create_sentra_core
         (spec_create_request name labels connections selected_option
            description)).
Proof.
  unfold SentraCoreController.save_current_state. f_equal.
  unfold SentraCoreCreate.validate, required, with_default.
  set (ls := _ <$> labels). set (cs := _ <$> connections).
  change ({[ "name" := VStr name; "description" := opt_str_value description;
             "labels" := VList ls; "connections" := VList cs;
             "selected_option" := VStr selected_option ]} !! "name")
    with (Some (VStr name)).
  change ({[ "name" := VStr name; "description" := opt_str_value description;
             "labels" := VList ls; "connections" := VList cs;
             "selected_option" := VStr selected_option ]} !! "description")
    with (Some (opt_str_value description)).
  change ({[ "name" := VStr name; "description" := opt_str_value description;
             "labels" := VList ls; "connections" := VList cs;
             "selected_option" := VStr selected_option ]} !! "labels")
    with (Some (VList ls)).
  change ({[ "name" := VStr name; "description" := opt_str_value description;
             "labels" := VList ls; "connections" := VList cs;
             "selected_option" := VStr selected_option ]} !! "connections")
    with (Some (VList cs)).
  change ({[ "name" := VStr name; "description" := opt_str_value description;
             "labels" := VList ls; "connections" := VList cs;
             "selected_option" := VStr selected_option ]} !! "selected_option")
    with (Some (VStr selected_option)).
  subst ls cs. simpl.
  rewrite v_opt_str_value, converted_labels_validate,
    converted_connections_validate.
  reflexivity.
Qed.

(** C8: [save_from_frontend] is [create] applied to the translation of its
    input, labels field for field and connections [{id, from, to}] as
    [{id, from_id: from, to_id: to}], both in the order given: whatever
    [create] returns on the translated request, the save returns, in the same
    final world; an error of [create] comes back with the prefix of the save
    added to its message. *)
Theorem save_is_create_of_translation name labels connections selected_option
    description (w : World) :
  match SentraCoreController.create_sentra_core
          (spec_create_request name labels connections selected_option
             description) w with
  | (Ok m, w') =>
      SentraCoreController.save_current_state name labels connections
        selected_option description w = (Ok m, w')
  | (Raise e, w') =>
      SentraCoreController.save_current_state name labels connections
        selected_option description w
      = (Raise (Exception ("Error saving current state: " +:+ str_exn e)), w')
  end.
Proof.
  rewrite save_current_state_run. unfold wrapped, try_except.
  by destruct (SentraCoreController.create_sentra_core _ w) as [[m|e] w'].
Qed.

(** The example of the specification: the connection [{id: "1-2",
    from: "1", to: "2"}] of a save-state request is stored as
    [{id: "1-2", from_id: "1", to_id: "2"}]. *)
Example save_state_stores_connection :
  (λ doc : Document, doc !! "connections")
    <$> documents (routes.save_current_state sample_save_state_body sample_world).2
  = [ Some (VList [ {[ "id" := SStr "1-2"; "from_id" := SStr "1";
                       "to_id" := SStr "2" ]} ]) ].
Proof. vm_compute. reflexivity. Qed.

(** ** C9: the name of a new record *)

Lemma create_route_run raw data w :
  SentraCoreCreate.validate raw = Ok data →
  reachable w = true →
  List.find (has_id (VObjectId (next_oid w))) (documents w) = None →
  routes.create_sentra_core raw w
  = (mkResponse 201 (CModel (as_stored (new_record data w))),
     after_create data w).
Proof.
  intros Hraw Hr Hfresh.
  unfold routes.create_sentra_core, respond, bind, parse_body, try_except.
  rewrite Hraw. unfold ret at 1. by rewrite create_run.
Qed.

Lemma save_route_run raw req w :
  SaveStateRequest.validate raw = Ok req →
  let data := spec_create_request (SaveStateRequest.name req)
                (SaveStateRequest.labels req) (SaveStateRequest.connections req)
                (SaveStateRequest.selected_option req)
                (SaveStateRequest.description req) in
  reachable w = true →
  List.find (has_id (VObjectId (next_oid w))) (documents w) = None →
  routes.save_current_state raw w
  = (mkResponse 201 (CModel (as_stored (new_record data w))),
     after_create data w).
Proof.
  intros Hraw data Hr Hfresh.
  unfold routes.save_current_state, respond, bind, parse_body, try_except.
  rewrite Hraw. unfold ret at 1. rewrite save_current_state_run. fold data.
  unfold wrapped, try_except. by rewrite create_run.
Qed.

(** C9 as stated asks that an empty name be rejected.  The models declare
    [name: str] and nothing more: the request with the name [""] is answered
    201 and its record is stored with that name. *)
Lemma empty_name_is_stored :
  status_code (routes.create_sentra_core {[ "name" := VStr "" ]} sample_world).1
  = 201%nat
  ∧ (λ doc : Document, doc !! "name")
      <$> documents (routes.create_sentra_core {[ "name" := VStr "" ]} sample_world).2
    = [ Some (VStr "") ].
Proof. split; vm_compute; reflexivity. Qed.

(** C9, amended: the name is required and must be a string, nothing more.
    A create or frontend-save request whose body has no name, or a name that
    is not a string, is refused by the validation of the request body with
    HTTP 422 before the handler runs, and the world is left as it was.  A
    body that validates is answered 201 (store responding, identifier
    fresh) and its record is stored under the name given, whatever the
    string. *)
Theorem name_required_any_string (raw : Document) (w : World) :
  (∀ e, required raw "name" v_str = Raise e →
        status_code (routes.create_sentra_core raw w).1 = 422%nat
        ∧ (routes.create_sentra_core raw w).2 = w
        ∧ status_code (routes.save_current_state raw w).1 = 422%nat
        ∧ (routes.save_current_state raw w).2 = w)
  ∧ (reachable w = true →
     List.find (has_id (VObjectId (next_oid w))) (documents w) = None →
     (∀ data, SentraCoreCreate.validate raw = Ok data →
        ∃ m w', routes.create_sentra_core raw w = (mkResponse 201 (CModel m), w')
          ∧ raw !! "name" = Some (VStr (SentraCoreModel.name m))
          ∧ documents w' = documents w ++ [SentraCoreModel.model_dump_by_alias m])
     ∧ (∀ req, SaveStateRequest.validate raw = Ok req →
        ∃ m w', routes.save_current_state raw w = (mkResponse 201 (CModel m), w')
          ∧ raw !! "name" = Some (VStr (SentraCoreModel.name m))
          ∧ documents w' = documents w ++ [SentraCoreModel.model_dump_by_alias m])).
Proof.
  split.
  - intros e He.
    unfold routes.create_sentra_core, routes.save_current_state, respond, bind,
      parse_body, SentraCoreCreate.validate, SaveStateRequest.validate.
    by rewrite He.
  - intros Hr Hfresh. split.
    + intros data Hraw. eexists _, _.
      split; [by apply create_route_run|]. split; [|done].
      unfold SentraCoreCreate.validate, required in Hraw.
      destruct (raw !! "name") as [[]|]; try discriminate Hraw.
      simpl in Hraw. unfold result_bind in Hraw.
      repeat match type of Hraw with
             | match ?x with _ => _ end = _ => destruct x; try discriminate Hraw
             end.
      by injection Hraw as <-.
    + intros req Hraw. eexists _, _.
      split; [by apply save_route_run|]. split; [|done].
      unfold SaveStateRequest.validate, required in Hraw.
      destruct (raw !! "name") as [[]|]; try discriminate Hraw.
      simpl in Hraw. unfold result_bind in Hraw.
      repeat match type of Hraw with
             | match ?x with _ => _ end = _ => destruct x; try discriminate Hraw
             end.
      by injection Hraw as <-.
Qed.

Lemma name_required_any_string_witness :
  status_code (routes.create_sentra_core ∅ sample_world).1 = 422%nat
  ∧ ∃ m w',
      routes.create_sentra_core {[ "name" := VStr "" ]} sample_world
      = (mkResponse 201 (CModel m), w')
      ∧ SentraCoreModel.name m = "".
Proof.
  split.
  - destruct (name_required_any_string ∅ sample_world) as [Hrej _].
    destruct (Hrej (missing "name")) as [Hcreate _]; [reflexivity|].
    exact Hcreate.
  - destruct (name_required_any_string {[ "name" := VStr "" ]} sample_world)
      as [_ Hok].
    destruct Hok as [Hcreate _]; [reflexivity | reflexivity |].
    destruct (Hcreate (SentraCoreCreate.mk "" (Some "") [] [] (Some "")))
      as (m & w' & Hrun & Hname & _); [reflexivity|].
    exists m, w'. split; [assumption|].
    by injection Hname.
Defined.

(** ** [update]: what is written, what is kept, what is returned *)

Lemma validate_world d w :
  documents (SentraCoreModel.validate d w).2 = documents w
  ∧ store_log (SentraCoreModel.validate d w).2 = store_log w
  ∧ reachable (SentraCoreModel.validate d w).2 = reachable w.
Proof.
  unfold SentraCoreModel.validate, SentraCoreModel.with_factory, bind, ret, lift,
    new_ObjectId, utcnow.
  destruct (SentraCoreModel.lookup_id d), (d !! "created_at"), (d !! "updated_at");
    done.
Qed.

Lemma dump_frame m m' k :
  SentraCoreModel.id m = SentraCoreModel.id m' →
  SentraCoreModel.created_at m = SentraCoreModel.created_at m' →
  k ≠ "name" → k ≠ "description" → k ≠ "labels" → k ≠ "connections" →
  k ≠ "selected_option" → k ≠ "updated_at" →
  SentraCoreModel.model_dump_by_alias m !! k
  = SentraCoreModel.model_dump_by_alias m' !! k.
Proof.
  intros Hid Hc. intros. unfold SentraCoreModel.model_dump_by_alias.
  rewrite Hid, Hc. 
  rewrite !lookup_insert. rewrite !lookup_singleton.
  repeat case_decide; subst; done.
Qed.

Lemma apply_set_dump p now m :
  storable p →
  apply_set (update_dict p now) (SentraCoreModel.model_dump_by_alias m)
  = SentraCoreModel.model_dump_by_alias (patched p now m).
Proof.
  intros (Hn & Hl & Hc). apply map_eq. intros k.
  rewrite apply_set_lookup. unfold update_dict.
  destruct (decide (k = "updated_at")) as [->|Hk]; [by rewrite lookup_insert_eq|].
  rewrite lookup_insert_ne by done.
  unfold SentraCoreUpdate.model_dump_exclude_unset.
  rewrite !entry_lookup, lookup_empty.
  destruct p as [pn pd pl pc ps]. simpl in *.
  repeat case_decide; subst.
  all: try (destruct pn as [[?|]|]; try done).
  all: try (destruct pd as [[?|]|]; try done).
  all: try (destruct pl as [[?|]|]; try done).
  all: try (destruct pc as [[?|]|]; try done).
  all: try (destruct ps as [[?|]|]; try done).
  all: by apply dump_frame.
Qed.

Lemma update_dict_no_id p now : update_dict p now !! "_id" = None.
Proof. by apply update_dict_lacks; [apply not_a_patch_field|]. Qed.

Lemma has_id_apply_set v p now d :
  has_id v (apply_set (update_dict p now) d) = has_id v d.
Proof. apply has_id_lookup. by rewrite apply_set_lookup, update_dict_no_id. Qed.

Lemma find_update_docs v p now docs d :
  List.find (has_id v) docs = Some d →
  List.find (has_id v) (update_docs (has_id v) (apply_set (update_dict p now)) docs)
  = Some (apply_set (update_dict p now) d).
Proof.
  intros (l1 & l2 & -> & Hd & Hl1)%find_split.
  rewrite update_docs_split, find_app_None by done. simpl.
  by rewrite has_id_apply_set, Hd.
Qed.

Lemma update_world id p w :
  ObjectId_is_valid id = true → reachable w = true →
  let set := update_dict p (clock w (ticks w)) in
  let w' := (SentraCoreController.update_sentra_core id p w).2 in
  documents w'
  = update_docs (has_id (VObjectId (oid_of id))) (apply_set set) (documents w)
  ∧ ∃ rest, store_log w'
            = store_log w ++ UpdateOne (VObjectId (oid_of id)) set :: rest
            ∧ only_finds id rest.
Proof.
  intros Hacc Hr set w'. subst w'. rewrite update_run by done.
  set (w1 := with_documents _ _).
  assert (H1 : documents w1 = update_docs (has_id (VObjectId (oid_of id))) (apply_set set) (documents w)) by done.
  assert (H2 : store_log w1 = store_log w ++ [UpdateOne (VObjectId (oid_of id)) set]) by done.
  assert (Hnone : documents (Ok (@None SentraCoreModel.t), w1).2 = documents w1 ∧
          ∃ rest, store_log (Ok (@None SentraCoreModel.t), w1).2 = store_log w ++ UpdateOne (VObjectId (oid_of id)) set :: rest
            ∧ only_finds id rest).
  { split; [done|]. exists []. split; [done|constructor]. }
  destruct (stored id w) as [d|]; [|by rewrite <- H1].
  case_bool_decide; [by rewrite <- H1|].
  unfold wrapped, try_except, bind.
  pose proof (validate_world (apply_set set d) (logged (FindOne (VObjectId (oid_of id))) w1)) as (Hd & Hl & _).
  destruct (SentraCoreModel.validate _ _) as [[m|e] w2]; simpl in *.
  - split; [by rewrite Hd|]. exists [FindOne (VObjectId (oid_of id))].
    split; [|by repeat constructor]. rewrite Hl. by rewrite <- app_assoc.
  - split; [by rewrite Hd|]. exists [FindOne (VObjectId (oid_of id))].
    split; [|by repeat constructor]. rewrite Hl. by rewrite <- app_assoc.
Qed.

Lemma update_existing id p d w :
  is_valid id = true → reachable w = true → stored id w = Some d →
  let set := update_dict p (clock w (ticks w)) in
  let w' := (SentraCoreController.update_sentra_core id p w).2 in
  ∃ l1 l2,
    documents w = l1 ++ d :: l2
    ∧ documents w' = l1 ++ apply_set set d :: l2
    ∧ stored id w' = Some (apply_set set d).
Proof.
  intros Hid Hr Hs set w'. pose proof (is_valid_accepted _ Hid) as Hacc.
  destruct (update_world id p w Hacc Hr) as [Hdocs _]. fold set w' in Hdocs.
  unfold stored in *. rewrite Hdocs.
  apply find_split in Hs as (l1 & l2 & Hw & Hd & Hl1).
  exists l1, l2. rewrite Hw, update_docs_split by done.
  repeat split. rewrite find_app_None by done. simpl.
  unfold set. by rewrite has_id_apply_set, Hd.
Qed.

Lemma update_dict_name_patch v now :
  update_dict (name_patch v) now
  = {[ "name" := opt_str_value v; "updated_at" := VDatetime now ]}.
Proof.
  unfold update_dict, name_patch, SentraCoreUpdate.model_dump_exclude_unset. simpl.
  apply map_eq. intros k.
  rewrite !lookup_insert, lookup_singleton, lookup_empty.
  repeat case_decide; subst; done.
Qed.

Lemma apply_set_name_patch v now d :
  apply_set (update_dict (name_patch v) now) d
  = <["name" := opt_str_value v]>
      (<["updated_at" := VDatetime (bson_datetime now)]> d).
Proof.
  rewrite update_dict_name_patch. unfold apply_set, bson_encode.
  rewrite fmap_insert, map_fmap_singleton. simpl.
  rewrite bson_encode_opt_str.
  by rewrite <- insert_union_l, <- insert_union_singleton_l.
Qed.

Lemma update_returns_patched id p m w :
  is_valid id = true → reachable w = true → storable p →
  stored id w = Some (SentraCoreModel.model_dump_by_alias m) →
  let now := clock w (ticks w) in
  let set := update_dict p now in
  apply_set set (SentraCoreModel.model_dump_by_alias m)
  ≠ SentraCoreModel.model_dump_by_alias m →
  SentraCoreController.update_sentra_core id p w
  = (Ok (Some (patched p now m)),
     logged (FindOne (VObjectId (oid_of id)))
       (with_documents
          (update_docs (has_id (VObjectId (oid_of id))) (apply_set set) (documents w))
          (logged (UpdateOne (VObjectId (oid_of id)) set) (tick w)))).
Proof.
  intros Hid Hr Hp Hs now set Hne. pose proof (is_valid_accepted _ Hid) as Hacc.
  rewrite update_run by done. rewrite Hs.
  rewrite bool_decide_false by done.
  unfold wrapped, try_except, bind, set. rewrite apply_set_dump by done.
  by rewrite validate_dump.
Qed.

Lemma sample_world_1_stored :
  stored sample_id sample_world_1
  = Some (SentraCoreModel.model_dump_by_alias
            (as_stored (new_record sample_request sample_world))).
Proof. apply (bool_decide_unpack _). vm_compute. exact I. Qed.


Lemma renamed_changes_sample :
  apply_set (update_dict (name_patch (Some "Renamed"))
               (clock sample_world_1 (ticks sample_world_1)))
    (SentraCoreModel.model_dump_by_alias
       (as_stored (new_record sample_request sample_world)))
  ≠ SentraCoreModel.model_dump_by_alias
      (as_stored (new_record sample_request sample_world)).
Proof.
  intros H. apply (f_equal (λ d : Document, d !! "name")) in H.
  rewrite apply_set_name_patch in H. rewrite lookup_insert_eq in H.
  vm_compute in H. discriminate H.
Qed.

(** *** A patch the record model cannot take *)

Lemma assemble_refuses d r_id r_created_at r_updated_at e :
  required d "name" v_str = Raise e
  ∨ with_default d "labels" [] (v_list LabelModel.validate) = Raise e
  ∨ with_default d "connections" [] (v_list ConnectionModel.validate) = Raise e →
  ∃ e', SentraCoreModel.assemble d r_id r_created_at r_updated_at = Raise e'.
Proof.
  intros H. unfold SentraCoreModel.assemble.
  destruct r_id; simpl; [|eauto].
  destruct (required d "name" v_str) eqn:Hn; simpl; [|eauto].
  destruct (with_default d "description" _ _); simpl; [|eauto].
  destruct (with_default d "labels" _ _) eqn:Hl; simpl; [|eauto].
  destruct (with_default d "connections" _ _) eqn:Hc; simpl; [|eauto].
  destruct H as [?|[?|?]]; congruence.
Qed.

Lemma storable_or_not p : storable p ∨ ¬ storable p.
Proof.
  unfold storable. destruct p as [[[n|]|] pd [[l|]|] [[c|]|] ps]; simpl;
    first [left; repeat split; discriminate | right; intros (?&?&?); congruence].
Qed.

Lemma unstorable_cases p :
  ¬ storable p →
  SentraCoreUpdate.name p = Some None ∨ SentraCoreUpdate.labels p = Some None
  ∨ SentraCoreUpdate.connections p = Some None.
Proof.
  unfold storable. destruct p as [[[n|]|] pd [[l|]|] [[c|]|] ps]; simpl; intros H;
    auto; exfalso; apply H; repeat split; discriminate.
Qed.

Lemma update_dict_null p now :
  (SentraCoreUpdate.name p = Some None → update_dict p now !! "name" = Some VNone)
  ∧ (SentraCoreUpdate.labels p = Some None →
     update_dict p now !! "labels" = Some VNone)
  ∧ (SentraCoreUpdate.connections p = Some None →
     update_dict p now !! "connections" = Some VNone).
Proof.
  unfold update_dict, SentraCoreUpdate.model_dump_exclude_unset.
  repeat split; intros H; rewrite lookup_insert_ne by done;
    rewrite !entry_lookup, H; by repeat case_decide.
Qed.

Lemma validate_unstorable p now m w :
  ¬ storable p →
  apply_set (update_dict p now) (SentraCoreModel.model_dump_by_alias m)
  ≠ SentraCoreModel.model_dump_by_alias m
  ∧ ∃ e, SentraCoreModel.validate
           (apply_set (update_dict p now) (SentraCoreModel.model_dump_by_alias m))
           w = (Raise e, w).
Proof.
  intros Hp.
  set (d' := apply_set (update_dict p now) (SentraCoreModel.model_dump_by_alias m)).
  destruct (update_dict_null p now) as (Hn & Hl & Hc).
  assert (Hnull : ∃ k, d' !! k = Some VNone
            ∧ (k = "name" ∨ k = "labels" ∨ k = "connections")).
  { destruct (unstorable_cases p Hp) as [H|[H|H]];
      [exists "name"|exists "labels"|exists "connections"];
      (split; [|by auto]); unfold d'; rewrite apply_set_lookup;
      by rewrite ?(Hn H), ?(Hl H), ?(Hc H). }
  destruct Hnull as (k & Hk & Hcase). split.
  - intros Heq. rewrite Heq in Hk.
    destruct Hcase as [-> | [-> | ->]]; discriminate Hk.
  - rewrite (validate_keys _ _ (SentraCoreModel.id_value (SentraCoreModel.id m))
               (VDatetime (SentraCoreModel.created_at m))
               (VDatetime (bson_datetime now))).
    + destruct (assemble_refuses d'
                  (SentraCoreModel.v_id "_id"
                     (SentraCoreModel.id_value (SentraCoreModel.id m)))
                  (v_datetime "created_at" (VDatetime (SentraCoreModel.created_at m)))
                  (v_datetime "updated_at" (VDatetime (bson_datetime now)))
                  (invalid k)) as [err ->]; [|by eexists].
      unfold required, with_default.
      destruct Hcase as [-> | [-> | ->]]; rewrite Hk; auto.
    + unfold SentraCoreModel.lookup_id, d'.
      by rewrite apply_set_lookup, update_dict_no_id.
    + unfold d'. rewrite apply_set_lookup.
      by rewrite update_dict_lacks by (by try apply not_a_patch_field).
    + unfold d'. rewrite apply_set_lookup. unfold update_dict.
      by rewrite lookup_insert_eq.
Qed.

(** ** C4: what [update] returns *)

(** A patch may set a field to null, [name] included; the store then
    reports a modified document, and the record model refuses the refreshed
    document, whose name is not a string: [update] raises instead of
    returning the record. *)
Lemma null_name_patch_raises :
  let now := clock sample_world_1 (ticks sample_world_1) in
  (update_one (VObjectId (oid_of sample_id)) (update_dict (name_patch None) now)
     (tick sample_world_1)).1
  = Ok (mkUpdateResult 1 1)
  ∧ match (SentraCoreController.update_sentra_core sample_id (name_patch None)
             sample_world_1).1 with
    | Raise (Exception _) => True
    | _ => False
    end.
Proof. split; vm_compute; [reflexivity | exact I]. Qed.

(** C4 says that, for every patch, [update] returns the refreshed record
    when the store reports a modified document and the absent result
    otherwise, [updated_at] being set by the same update.  For a well-formed
    identifier, a store that responds and stored records that are valid
    configurations, the store reports no modified document exactly when no
    record matched or the update left the record as it was, and [update]
    then returns the absent result.  When a document was modified and the
    patch sets none of name, labels and connections to null, [update]
    returns the refreshed record, whose [updated_at] is the current time in
    whole milliseconds, written by the same store call as the patch.  But a
    patch may set one of these fields to null: the store writes the null,
    the record model refuses the document read back, and [update] raises
    instead of returning the record; the endpoint answers 500, and the
    stored record can no longer be read. *)
Theorem update_returns_refreshed id p w :
  is_valid id = true → reachable w = true →
  (∀ d, stored id w = Some d → ∃ m, d = SentraCoreModel.model_dump_by_alias m) →
  let now := clock w (ticks w) in
  let set := update_dict p now in
  ∃ r w1,
    update_one (VObjectId (oid_of id)) set (tick w) = (Ok r, w1)
    ∧ (modified_count r = 0 ↔
       stored id w = None ∨ ∃ d, stored id w = Some d ∧ apply_set set d = d)
    ∧ (modified_count r = 0 →
       SentraCoreController.update_sentra_core id p w = (Ok None, w1))
    ∧ (modified_count r ≠ 0 → storable p →
       ∃ m, stored id w = Some (SentraCoreModel.model_dump_by_alias m)
            ∧ stored id w1
              = Some (SentraCoreModel.model_dump_by_alias (patched p now m))
            ∧ SentraCoreModel.updated_at (patched p now m) = bson_datetime now
            ∧ SentraCoreController.update_sentra_core id p w
              = (Ok (Some (patched p now m)),
                 logged (FindOne (VObjectId (oid_of id))) w1))
    ∧ (¬ storable p → ∀ d, stored id w = Some d →
       let w2 := logged (FindOne (VObjectId (oid_of id))) w1 in
       modified_count r ≠ 0
       ∧ stored id w1 = Some (apply_set set d)
       ∧ (∃ msg, SentraCoreController.update_sentra_core id p w
                 = (Raise (Exception msg), w2))
       ∧ (∀ raw, SentraCoreUpdate.validate raw = Ok p →
            status_code (routes.update_sentra_core id raw w).1 = 500%nat)
       ∧ (∃ msg, (SentraCoreController.get_sentra_core_by_id id w2).1
                 = Raise (Exception msg))).
Proof.
  intros Hid Hr Hvalid. cbv zeta. pose proof (is_valid_accepted _ Hid) as Hacc.
  set (upd := update_dict p (clock w (ticks w))).
  eexists _, _. split; [apply update_one_run; [done|apply update_dict_no_id]|].
  change (documents (tick w)) with (documents w). fold (stored id w).
  set (w1 := with_documents _ _).
  destruct (stored id w) as [d|] eqn:Hs.
  - destruct (Hvalid d eq_refl) as [m ->].
    destruct (storable_or_not p) as [Hp|Hp].
    + case_bool_decide as Heq; simpl.
      * split; [naive_solver|]. split; [|done].
        intros _. rewrite update_run by done.
        rewrite Hs. by rewrite bool_decide_true.
      * split; [split; [done|intros [?|(? & [= <-] & ?)]; done]|].
        split; [done|]. split; [|done].
        intros _ _. exists m. split; [done|].
        split; [|split; [done|by apply update_returns_patched]].
        unfold upd. rewrite <- apply_set_dump by done. by apply find_update_docs.
    + destruct (validate_unstorable p (clock w (ticks w)) m w Hp) as [Hne _].
      fold upd in Hne. rewrite bool_decide_false by done. simpl.
      split; [split; [done|intros [?|(? & [= <-] & ?)]; done]|].
      split; [done|]. split; [done|].
      intros _ d [= <-].
      assert (Hs1 : stored id w1
                    = Some (apply_set upd (SentraCoreModel.model_dump_by_alias m)))
        by by apply find_update_docs.
      assert (Hupd : ∃ msg, SentraCoreController.update_sentra_core id p w
                = (Raise (Exception msg),
                   logged (FindOne (VObjectId (oid_of id))) w1)).
      { rewrite update_run by done. rewrite Hs. fold upd.
        rewrite bool_decide_false by done.
        unfold wrapped, try_except, bind. fold w1.
        destruct (validate_unstorable p (clock w (ticks w)) m
                    (logged (FindOne (VObjectId (oid_of id))) w1) Hp)
          as [_ [err Hv]].
        fold upd in Hv. rewrite Hv. by eexists. }
      destruct Hupd as [msg Hupd].
      split; [done|]. split; [done|]. split; [by eexists|]. split.
      * intros raw Hraw.
        unfold routes.update_sentra_core, respond, routes.except_400_500,
          try_except, bind, parse_body.
        rewrite Hraw. unfold ret at 1. by rewrite Hupd.
      * rewrite get_run by done.
        change (stored id (logged (FindOne (VObjectId (oid_of id))) w1))
          with (stored id w1).
        rewrite Hs1. unfold wrapped, try_except, bind.
        destruct (validate_unstorable p (clock w (ticks w)) m
                    (logged (FindOne (VObjectId (oid_of id)))
                       (logged (FindOne (VObjectId (oid_of id))) w1)) Hp)
          as [_ [err Hv]].
        fold upd in Hv. rewrite Hv. by eexists.
  - simpl. split; [naive_solver|]. split.
    { intros _. rewrite update_run by done. by rewrite Hs. }
    split; [done|]. by intros _ d.
Qed.

Lemma update_returns_refreshed_witness :
  (∃ r, (SentraCoreController.update_sentra_core sample_id
           (name_patch (Some "Renamed")) sample_world_1).1 = Ok (Some r)
        ∧ SentraCoreModel.name r = "Renamed")
  ∧ (∃ msg, (SentraCoreController.update_sentra_core sample_id
               (name_patch None) sample_world_1).1 = Raise (Exception msg)).
Proof.
  assert (Hvalid : ∀ d, stored sample_id sample_world_1 = Some d →
            ∃ m, d = SentraCoreModel.model_dump_by_alias m).
  { intros d Hd. rewrite sample_world_1_stored in Hd. injection Hd as <-.
    by eexists. }
  split.
  - destruct (update_returns_refreshed sample_id (name_patch (Some "Renamed"))
                sample_world_1 eq_refl eq_refl Hvalid)
      as (r & w1 & _ & Hzero & _ & Hmod & _).
    destruct Hmod as (m & Hm & _ & _ & Hrun).
    + intros H0. apply Hzero in H0 as [H0|(d & Hd & H0)].
      * by rewrite sample_world_1_stored in H0.
      * rewrite sample_world_1_stored in Hd. injection Hd as <-.
        by apply renamed_changes_sample.
    + unfold storable. simpl. repeat split; discriminate.
    + rewrite Hrun. eexists. split; reflexivity.
  - destruct (update_returns_refreshed sample_id (name_patch None)
                sample_world_1 eq_refl eq_refl Hvalid)
      as (r & w1 & _ & _ & _ & _ & Hnull).
    destruct (Hnull ltac:(unfold storable; simpl; tauto) _ sample_world_1_stored)
      as (_ & _ & [msg Hrun] & _).
    exists msg. by rewrite Hrun.
Defined.

(** ** C5: a patch leaves the fields it does not set *)

(** C5: for a stored record [d] and any patch, the update replaces [d], in
    place, by a document that agrees with [d] on every key the patch does
    not set other than [updated_at]; no other document changes.  For a patch
    that sets only the name, the new document is [d] with [name] and
    [updated_at] replaced: labels, connections, [created_at] and the
    identifier are those of [d], the one write sent to the store carries
    exactly [name] and [updated_at], and the record returned for a valid
    configuration differs from it in those two fields only. *)
Theorem update_leaves_other_fields id p d w :
  is_valid id = true → reachable w = true → stored id w = Some d →
  let now := clock w (ticks w) in
  let w' := (SentraCoreController.update_sentra_core id p w).2 in
  ∃ d' l1 l2,
    documents w = l1 ++ d :: l2
    ∧ documents w' = l1 ++ d' :: l2
    ∧ stored id w' = Some d'
    ∧ (∀ k, k ∉ SentraCoreUpdate.fields_set p → k ≠ "updated_at" →
            d' !! k = d !! k)
    ∧ (∀ v, p = name_patch v →
         d' = <["name" := opt_str_value v]>
                (<["updated_at" := VDatetime (bson_datetime now)]> d)
         ∧ d' !! "labels" = d !! "labels"
         ∧ d' !! "connections" = d !! "connections"
         ∧ d' !! "created_at" = d !! "created_at"
         ∧ d' !! "_id" = d !! "_id"
         ∧ (∃ rest,
              store_log w'
              = store_log w
                ++ UpdateOne (VObjectId (oid_of id))
                     {[ "name" := opt_str_value v;
                        "updated_at" := VDatetime now ]} :: rest
              ∧ only_finds id rest)
         ∧ (∀ m s, d = SentraCoreModel.model_dump_by_alias m → v = Some s →
              d' ≠ d →
              ∃ r, (SentraCoreController.update_sentra_core id p w).1
                   = Ok (Some r)
                ∧ SentraCoreModel.name r = s
                ∧ SentraCoreModel.updated_at r = bson_datetime now
                ∧ SentraCoreModel.id r = SentraCoreModel.id m
                ∧ SentraCoreModel.description r = SentraCoreModel.description m
                ∧ SentraCoreModel.labels r = SentraCoreModel.labels m
                ∧ SentraCoreModel.connections r = SentraCoreModel.connections m
                ∧ SentraCoreModel.selected_option r
                  = SentraCoreModel.selected_option m
                ∧ SentraCoreModel.created_at r = SentraCoreModel.created_at m)).
Proof.
  intros Hid Hr Hs now w'. pose proof (is_valid_accepted _ Hid) as Hacc.
  destruct (update_existing id p d w Hid Hr Hs) as (l1 & l2 & Hw & Hw' & Hs').
  fold now w' in Hw', Hs'.
  exists (apply_set (update_dict p now) d), l1, l2.
  split; [done|]. split; [done|]. split; [done|]. split.
  - intros k Hk Hne. by rewrite apply_set_lookup, update_dict_lacks.
  - intros v ->. rewrite apply_set_name_patch.
    split; [done|]. do 4 (split; [by rewrite !lookup_insert_ne|]).
    split.
    + destruct (update_world id (name_patch v) w Hacc Hr) as [_ Hlog].
      by rewrite update_dict_name_patch in Hlog.
    + intros m s -> -> Hne. rewrite <- apply_set_name_patch in Hne.
      exists (patched (name_patch (Some s)) now m).
      split; [|done].
      rewrite (update_returns_patched id _ m w); done.
Qed.


Lemma update_leaves_other_fields_witness :
  ∃ d',
    stored sample_id
      (SentraCoreController.update_sentra_core sample_id
         (name_patch (Some "Renamed")) sample_world_1).2 = Some d'
    ∧ d' !! "labels"
      = SentraCoreModel.model_dump_by_alias
          (as_stored (new_record sample_request sample_world)) !! "labels".
Proof.
  destruct (update_leaves_other_fields sample_id (name_patch (Some "Renamed"))
              (SentraCoreModel.model_dump_by_alias
                 (as_stored (new_record sample_request sample_world)))
              sample_world_1)
    as (d' & l1 & l2 & _ & _ & Hs' & _ & Hname).
  - reflexivity.
  - reflexivity.
  - exact sample_world_1_stored.
  - destruct (Hname (Some "Renamed") eq_refl) as (_ & Hl & _).
    exists d'. split; assumption.
Defined.

(** ** C10: the fields [update] writes *)

(** C10: the dictionary [update] sends to the store holds exactly the
    fields set in the patch and [updated_at], never the identifier nor
    [created_at]; it is the only write of the call.  A matched record
    therefore keeps its identifier and its [created_at], and gets the
    current time as [updated_at], also when the patch is empty, the
    dictionary then being [updated_at] alone. *)
Theorem update_writes_set_fields id p w :
  is_valid id = true → reachable w = true →
  let now := clock w (ticks w) in
  let upd := update_dict p now in
  let w' := (SentraCoreController.update_sentra_core id p w).2 in
  dom upd = SentraCoreUpdate.fields_set p ∪ {[ "updated_at" ]}
  ∧ ("_id" ∉ dom upd) ∧ ("id" ∉ dom upd) ∧ ("created_at" ∉ dom upd)
  ∧ upd !! "updated_at" = Some (VDatetime now)
  ∧ (∃ rest, store_log w'
             = store_log w ++ UpdateOne (VObjectId (oid_of id)) upd :: rest
             ∧ only_finds id rest)
  ∧ (∀ d, stored id w = Some d →
       ∃ d', stored id w' = Some d'
             ∧ d' !! "_id" = d !! "_id"
             ∧ d' !! "created_at" = d !! "created_at"
             ∧ d' !! "updated_at" = Some (VDatetime (bson_datetime now)))
  ∧ (p = empty_patch → upd = {[ "updated_at" := VDatetime now ]}).
Proof.
  intros Hid Hr now upd w'. pose proof (is_valid_accepted _ Hid) as Hacc.
  assert (Hdom : dom upd = SentraCoreUpdate.fields_set p ∪ {[ "updated_at" ]})
    by apply update_dict_dom.
  pose proof (fields_set_subseteq p) as Hsub.
  split; [done|]. rewrite Hdom.
  split; [set_solver|]. split; [set_solver|]. split; [set_solver|].
  split; [apply lookup_insert_eq|].
  split; [by destruct (update_world id p w Hacc Hr)|].
  split.
  - intros d Hs.
    destruct (update_existing id p d w Hid Hr Hs) as (l1 & l2 & _ & _ & Hs').
    eexists. split; [exact Hs'|].
    rewrite !apply_set_lookup.
    rewrite !update_dict_lacks by (try apply not_a_patch_field; done).
    split; [done|]. split; [done|].
    unfold update_dict. by rewrite lookup_insert_eq.
  - by intros ->.
Qed.


Lemma update_writes_set_fields_witness :
  ∃ d',
    stored sample_id
      (SentraCoreController.update_sentra_core sample_id empty_patch
         sample_world_1).2 = Some d'
    ∧ d' !! "updated_at"
      = Some (VDatetime
                (bson_datetime (clock sample_world_1 (ticks sample_world_1)))).
Proof.
  destruct (update_writes_set_fields sample_id empty_patch sample_world_1)
    as (_ & _ & _ & _ & _ & _ & Hkeep & _).
  - reflexivity.
  - reflexivity.
  - destruct (Hkeep _ sample_world_1_stored) as (d' & Hs' & _ & _ & Hu).
    exists d'. split; assumption.
Defined.

(** * Further properties of the repository and its endpoints *)

(** ** Identifiers, there and back *)

Lemma oid_of_str_next w : oid_of (str_ObjectId (next_oid w)) = next_oid w.
Proof. apply oid_of_str. Qed.

Lemma stored_after_create data w :
  List.find (has_id (VObjectId (next_oid w))) (documents w) = None →
  stored (str_ObjectId (next_oid w)) (after_create data w)
  = Some (SentraCoreModel.model_dump_by_alias (as_stored (new_record data w))).
Proof.
  intros Hfresh. unfold stored. rewrite oid_of_str_next.
  unfold after_create. simpl documents.
  apply find_last; [done|]. by apply bool_decide_eq_true.
Qed.

(** X1: when [create] succeeds, [get_by_id] on the text of the returned
    identifier finds the record [create] returned, and the GET endpoint
    answers 200 with it. *)
Theorem get_after_create data w :
  reachable w = true →
  List.find (has_id (VObjectId (next_oid w))) (documents w) = None →
  ∃ m o w',
    SentraCoreController.create_sentra_core data w = (Ok m, w')
    ∧ SentraCoreModel.id m = Some (IdObjectId o)
    ∧ (SentraCoreController.get_sentra_core_by_id (str_ObjectId o) w').1
      = Ok (Some m)
    ∧ (routes.get_sentra_core (str_ObjectId o) w').1 = mkResponse 200 (CModel m).
Proof.
  intros Hr Hfresh.
  exists (as_stored (new_record data w)), (next_oid w), (after_create data w).
  split; [by apply create_run|]. split; [done|].
  assert (Hget : SentraCoreController.get_sentra_core_by_id
                   (str_ObjectId (next_oid w)) (after_create data w)
                 = (Ok (Some (as_stored (new_record data w))),
                    logged (FindOne (VObjectId (oid_of (str_ObjectId (next_oid w)))))
                      (after_create data w))).
  { rewrite get_run; [|apply is_valid_accepted, str_next_oid_valid|done].
    rewrite stored_after_create by done.
    unfold wrapped, try_except, bind. by rewrite validate_dump. }
  split; [by rewrite Hget|].
  unfold routes.get_sentra_core, respond, routes.except_400_500, try_except, bind.
  by rewrite Hget.
Qed.

Lemma get_after_create_witness :
  ∃ m o w',
    SentraCoreController.create_sentra_core sample_request sample_world = (Ok m, w')
    ∧ SentraCoreModel.id m = Some (IdObjectId o)
    ∧ (SentraCoreController.get_sentra_core_by_id (str_ObjectId o) w').1
      = Ok (Some m).
Proof.
  destruct (get_after_create sample_request sample_world)
    as (m & o & w' & Hc & Hi & Hg & _); [reflexivity | reflexivity |].
  exists m, o, w'. repeat split; assumption.
Defined.

(** ** Reading leaves the collection alone *)

Lemma traverseM_validate_world docs w :
  documents (traverseM SentraCoreModel.validate docs w).2 = documents w
  ∧ store_log (traverseM SentraCoreModel.validate docs w).2 = store_log w.
Proof.
  revert w. induction docs as [|d docs IH]; intros w; [done|].
  cbn [traverseM]. unfold bind.
  pose proof (validate_world d w) as (Hd & Hl & _).
  destruct (SentraCoreModel.validate d w) as [[m|e] w1]; simpl in *; [|done].
  destruct (IH w1) as [Hd1 Hl1].
  destruct (traverseM SentraCoreModel.validate docs w1) as [[ms|e] w2];
    simpl in *; by rewrite ?Hd1, ?Hl1.
Qed.

Lemma wrapped_world {A} prefix (body : M A) w :
  (wrapped prefix body w).2 = (body w).2.
Proof. unfold wrapped, try_except. by destruct (body w) as [[a|e] w']. Qed.

Lemma store_call_documents op w : documents (store_call op w).2 = documents w.
Proof. unfold store_call. by destruct (reachable w). Qed.

Lemma get_documents_kept id w :
  documents (SentraCoreController.get_sentra_core_by_id id w).2 = documents w.
Proof.
  unfold SentraCoreController.get_sentra_core_by_id. rewrite wrapped_world.
  destruct (negb (ObjectId_is_valid id)); [done|].
  unfold bind, lift. destruct (ObjectId_of_str id) as [oid|e]; [|done].
  unfold find_one, bind, get_documents, ret.
  pose proof (store_call_documents (FindOne (VObjectId oid)) w) as Hs.
  destruct (store_call _ w) as [[[]|e] w1]; simpl in *; [|done].
  destruct (List.find _ _) as [d|]; [|done].
  destruct (truthy d); [|done].
  pose proof (validate_world d w1) as (Hd & _).
  destruct (SentraCoreModel.validate d w1) as [[m|e] w2]; simpl in *; congruence.
Qed.

Lemma list_documents_kept skip limit w :
  documents (SentraCoreController.get_all_sentra_core skip limit w).2 = documents w.
Proof.
  unfold SentraCoreController.get_all_sentra_core. rewrite wrapped_world.
  unfold bind, find_sorted.
  destruct (skip <? 0); [done|]. destruct (limit <? 0); [done|].
  unfold bind, get_documents, ret.
  pose proof (store_call_documents (Find skip limit) w) as Hs.
  destruct (store_call _ w) as [[[]|e] w1]; simpl in *; [|done].
  unfold encode_int64. destruct (_ || _); [done|]. unfold ret.
  by rewrite (proj1 (traverseM_validate_world _ _)).
Qed.

Lemma search_documents_kept regex name skip limit w :
  documents (SentraCoreController.search_sentra_core_by_name regex name skip limit w).2
  = documents w.
Proof.
  unfold SentraCoreController.search_sentra_core_by_name. rewrite wrapped_world.
  unfold bind, find_regex_sorted.
  destruct (skip <? 0); [done|]. destruct (limit <? 0); [done|].
  unfold bind, get_documents, ret.
  pose proof (store_call_documents (Find skip limit) w) as Hs.
  destruct (store_call _ w) as [[[]|e] w1]; simpl in *; [|done].
  unfold encode_int64. destruct (_ || _); [done|]. unfold ret.
  destruct (regex name); [|done].
  by rewrite (proj1 (traverseM_validate_world _ _)).
Qed.

Lemma count_documents_kept w :
  (SentraCoreController.get_sentra_core_count w).2 = w.
Proof.
  unfold SentraCoreController.get_sentra_core_count. rewrite wrapped_world.
  unfold count_documents. by destruct (reachable w).
Qed.

Lemma respond_world {A} success (to_content : A → content) (handler : M A) w :
  (respond success to_content handler w).2 = (handler w).2.
Proof.
  unfold respond. by destruct (handler w) as [[a|[]] w'].
Qed.

Lemma try_except_raise_world {A} (body : M A) (h : exn → exn) w :
  (try_except body (λ e, raise (h e)) w).2 = (body w).2.
Proof. unfold try_except. by destruct (body w) as [[a|e] w']. Qed.

(** X2: the read endpoints (get by id, list, search) never change the
    collection, whatever their arguments and outcome; a count changes
    nothing at all. *)
Theorem reads_keep_collection regex (id : string) (name : option string)
    (skip limit : option Z) (w : World) :
  documents (routes.get_sentra_core id w).2 = documents w
  ∧ documents (routes.get_all_sentra_core skip limit w).2 = documents w
  ∧ documents (routes.search_sentra_core regex name skip limit w).2 = documents w
  ∧ (SentraCoreController.get_sentra_core_count w).2 = w.
Proof.
  split; [|split; [|split; [|apply count_documents_kept]]].
  - unfold routes.get_sentra_core. rewrite respond_world.
    unfold routes.except_400_500, try_except, bind.
    pose proof (get_documents_kept id w) as H.
    destruct (SentraCoreController.get_sentra_core_by_id id w) as [[[m|]|e] w'];
      simpl in *; try done. by destruct (is_ValueError e).
  - unfold routes.get_all_sentra_core. rewrite respond_world.
    unfold bind, Query.
    destruct (_ <? 0); [done|]. unfold ret at 1.
    destruct (_ <? 1); [done|]. destruct (1000 <? _); [done|]. unfold ret at 1.
    rewrite try_except_raise_world. apply list_documents_kept.
  - unfold routes.search_sentra_core. rewrite respond_world.
    unfold bind. destruct name as [n|]; [|done]. unfold ret at 1, Query.
    destruct (_ <? 0); [done|]. unfold ret at 1.
    destruct (_ <? 1); [done|]. destruct (1000 <? _); [done|]. unfold ret at 1.
    rewrite try_except_raise_world. apply search_documents_kept.
Qed.

(** ** When the store does not answer *)

Lemma insert_one_down doc v w :
  doc !! "_id" = Some v → reachable w = false →
  insert_one doc w = (Raise store_down, logged (InsertOne doc) w).
Proof.
  intros Hid Hr. unfold insert_one. rewrite Hid.
  unfold bind, ret, store_call. rewrite Hr. by rewrite insert_id.
Qed.

Lemma create_down data w :
  reachable w = false →
  ∃ w', SentraCoreController.create_sentra_core data w
        = (Raise (Exception ("Error creating SentraCore configuration: "
                             +:+ str_exn store_down)), w')
        ∧ documents w' = documents w.
Proof.
  intros Hr. eexists.
  unfold SentraCoreController.create_sentra_core, wrapped, try_except, bind,
    new_ObjectId, utcnow.
  erewrite insert_one_down; [|reflexivity|done]. done.
Qed.

Lemma update_down id p w :
  ObjectId_is_valid id = true → reachable w = false →
  ∃ w', SentraCoreController.update_sentra_core id p w
        = (Raise (Exception ("Error updating SentraCore configuration: "
                             +:+ str_exn store_down)), w')
        ∧ documents w' = documents w.
Proof.
  intros Hid Hr. eexists.
  unfold SentraCoreController.update_sentra_core.
  rewrite Hid, ObjectId_of_str_accepted by done.
  unfold wrapped, try_except, bind, lift, utcnow, update_one, bind, store_call.
  unfold negb. simpl. rewrite Hr. done.
Qed.

Lemma delete_down id w :
  ObjectId_is_valid id = true → reachable w = false →
  ∃ w', SentraCoreController.delete_sentra_core id w
        = (Raise (Exception ("Error deleting SentraCore configuration: "
                             +:+ str_exn store_down)), w')
        ∧ documents w' = documents w.
Proof.
  intros Hid Hr. eexists.
  unfold SentraCoreController.delete_sentra_core.
  rewrite Hid, ObjectId_of_str_accepted by done.
  unfold wrapped, try_except, bind, lift, delete_one, bind, store_call.
  unfold negb. simpl. rewrite Hr. done.
Qed.

Lemma list_down skip limit w :
  0 ≤ skip → 0 ≤ limit → reachable w = false →
  ∃ w', SentraCoreController.get_all_sentra_core skip limit w
        = (Raise (Exception ("Error retrieving SentraCore configurations: "
                             +:+ str_exn store_down)), w')
        ∧ documents w' = documents w.
Proof.
  intros Hs Hl Hr. eexists.
  unfold SentraCoreController.get_all_sentra_core, find_sorted.
  destruct (Z.ltb_spec skip 0); [lia|]. destruct (Z.ltb_spec limit 0); [lia|].
  unfold wrapped, try_except, bind, store_call. rewrite Hr. done.
Qed.

Lemma count_down w :
  reachable w = false →
  SentraCoreController.get_sentra_core_count w
  = (Raise (Exception ("Error counting SentraCore configurations: "
                       +:+ str_exn store_down)), w).
Proof.
  intros Hr. unfold SentraCoreController.get_sentra_core_count, wrapped,
    try_except, count_documents. by rewrite Hr.
Qed.

(** X3: when the store does not answer, the create and save-state
    endpoints answer 400 and the get, list, update and delete endpoints
    answer 500; the collection is as it was. *)
Theorem store_failure_answers id raw_create raw_save raw_update data req patch w :
  reachable w = false → is_valid id = true →
  SentraCoreCreate.validate raw_create = Ok data →
  SaveStateRequest.validate raw_save = Ok req →
  SentraCoreUpdate.validate raw_update = Ok patch →
  status_code (routes.create_sentra_core raw_create w).1 = 400%nat
  ∧ status_code (routes.save_current_state raw_save w).1 = 400%nat
  ∧ status_code (routes.get_sentra_core id w).1 = 500%nat
  ∧ status_code (routes.get_all_sentra_core None None w).1 = 500%nat
  ∧ status_code (routes.update_sentra_core id raw_update w).1 = 500%nat
  ∧ status_code (routes.delete_sentra_core id w).1 = 500%nat
  ∧ documents (routes.create_sentra_core raw_create w).2 = documents w
  ∧ documents (routes.save_current_state raw_save w).2 = documents w
  ∧ documents (routes.update_sentra_core id raw_update w).2 = documents w
  ∧ documents (routes.delete_sentra_core id w).2 = documents w.
Proof.
  intros Hr Hid Hc Hs Hu. pose proof (is_valid_accepted _ Hid) as Hacc.
  destruct (create_down data w Hr) as (w1 & Hcreate & Hd1).
  destruct (create_down
              (spec_create_request (SaveStateRequest.name req)
                 (SaveStateRequest.labels req) (SaveStateRequest.connections req)
                 (SaveStateRequest.selected_option req)
                 (SaveStateRequest.description req)) w Hr) as (w2 & Hsave & Hd2).
  destruct (update_down id patch w Hacc Hr) as (w3 & Hupd & Hd3).
  destruct (delete_down id w Hacc Hr) as (w4 & Hdel & Hd4).
  destruct (list_down 0 100 w ltac:(lia) ltac:(lia) Hr) as (w5 & Hlist & Hd5).
  assert (Hcr : routes.create_sentra_core raw_create w
                = (mkResponse 400 (CDetail
                     ("Error creating SentraCore configuration: "
                      +:+ str_exn store_down)), w1)).
  { unfold routes.create_sentra_core, respond, bind, parse_body, try_except.
    rewrite Hc. unfold ret at 1. by rewrite Hcreate. }
  assert (Hsr : ∃ detail, routes.save_current_state raw_save w
                = (mkResponse 400 (CDetail detail), w2)).
  { eexists. unfold routes.save_current_state, respond, bind, parse_body, try_except.
    rewrite Hs. unfold ret at 1. rewrite save_current_state_run.
    unfold wrapped, try_except. rewrite Hsave. reflexivity. }
  destruct Hsr as [detail Hsr].
  assert (Hur : ∃ detail, routes.update_sentra_core id raw_update w
                = (mkResponse 500 (CDetail detail), w3)).
  { eexists. unfold routes.update_sentra_core, respond, routes.except_400_500,
      try_except, bind, parse_body.
    rewrite Hu. unfold ret at 1. rewrite Hupd. reflexivity. }
  destruct Hur as [detail' Hur].
  assert (Hdr : ∃ detail, routes.delete_sentra_core id w
                = (mkResponse 500 (CDetail detail), w4)).
  { eexists. unfold routes.delete_sentra_core, respond, routes.except_400_500,
      try_except, bind. rewrite Hdel. reflexivity. }
  destruct Hdr as [detail'' Hdr].
  rewrite Hcr, Hsr, Hur, Hdr. repeat split; try done.
  - unfold routes.get_sentra_core, respond, routes.except_400_500, try_except, bind.
    by rewrite get_down.
  - unfold routes.get_all_sentra_core, respond, bind, Query, try_except. simpl.
    unfold ret. by rewrite Hlist.
Qed.

(** ** What a write does to the collection *)

Lemma insert_one_duplicate doc v d w :
  doc !! "_id" = Some v → reachable w = true →
  List.find (has_id v) (documents w) = Some d →
  insert_one doc w
  = (Raise (PyMongoError "E11000 duplicate key error"), logged (InsertOne doc) w).
Proof.
  intros Hid Hr Hf. unfold insert_one. rewrite Hid.
  unfold bind, ret, store_call, get_documents. rewrite Hr, insert_id by done.
  change (documents (logged (InsertOne doc) w)) with (documents w).
  destruct (existsb (has_id v) (documents w)) eqn:He; [done|].
  apply find_None_existsb in He. congruence.
Qed.

Lemma create_documents data w :
  documents (SentraCoreController.create_sentra_core data w).2 = documents w
  ∨ (reachable w = true
     ∧ List.find (has_id (VObjectId (next_oid w))) (documents w) = None
     ∧ documents (SentraCoreController.create_sentra_core data w).2
       = documents w
         ++ [SentraCoreModel.model_dump_by_alias (as_stored (new_record data w))]).
Proof.
  destruct (reachable w) eqn:Hr.
  - destruct (List.find (has_id (VObjectId (next_oid w))) (documents w))
      as [d|] eqn:Hf.
    + left. unfold SentraCoreController.create_sentra_core, wrapped, try_except,
        bind, new_ObjectId, utcnow.
      erewrite insert_one_duplicate; [done|reflexivity|done|exact Hf].
    + right. rewrite create_run by done. done.
  - left. by destruct (create_down data w Hr) as (w' & -> & ?).
Qed.

Lemma update_documents id p w :
  documents (SentraCoreController.update_sentra_core id p w).2 = documents w
  ∨ (ObjectId_is_valid id = true ∧ reachable w = true
     ∧ documents (SentraCoreController.update_sentra_core id p w).2
       = update_docs (has_id (VObjectId (oid_of id)))
           (apply_set (update_dict p (clock w (ticks w)))) (documents w)).
Proof.
  destruct (ObjectId_is_valid id) eqn:Hacc; [|left; by rewrite update_malformed].
  destruct (reachable w) eqn:Hr.
  - right. by destruct (update_world id p w Hacc Hr) as [-> _].
  - left. by destruct (update_down id p w Hacc Hr) as (w' & -> & ?).
Qed.

Lemma delete_documents id w :
  documents (SentraCoreController.delete_sentra_core id w).2 = documents w
  ∨ (ObjectId_is_valid id = true ∧ reachable w = true
     ∧ documents (SentraCoreController.delete_sentra_core id w).2
       = remove_docs (has_id (VObjectId (oid_of id))) (documents w)).
Proof.
  destruct (ObjectId_is_valid id) eqn:Hacc; [|left; by rewrite delete_malformed].
  destruct (reachable w) eqn:Hr.
  - right. by rewrite delete_run.
  - left. by destruct (delete_down id w Hacc Hr) as (w' & -> & ?).
Qed.

Lemma save_world name labels connections selected_option description w :
  (SentraCoreController.save_current_state name labels connections
     selected_option description w).2
  = (SentraCoreController.create_sentra_core
       (spec_create_request name labels connections selected_option description)
       w).2.
Proof. by rewrite save_current_state_run, wrapped_world. Qed.

(** *** Identifiers stay unique *)

Lemma find_None_Forall (p : Document → bool) docs :
  List.find p docs = None → Forall (λ d, p d = false) docs.
Proof.
  induction docs as [|a docs IH]; simpl; [constructor|].
  destruct (p a) eqn:Hp; [done|]. intros H. constructor; auto.
Qed.

Lemma unique_ids_snoc v docs d :
  unique_ids docs → List.find (has_id v) docs = None →
  d !! "_id" = Some (bson_encode_value v) → unique_ids (docs ++ [d]).
Proof.
  unfold unique_ids. intros Hu Hf Hd. rewrite fmap_app. simpl.
  apply NoDup_app. split; [done|]. split; [|apply NoDup_singleton].
  intros x Hx ->%list_elem_of_singleton.
  apply list_elem_of_fmap in Hx as (d0 & Hd0 & Hin).
  apply find_None_Forall in Hf. rewrite Forall_forall in Hf.
  specialize (Hf d0 Hin). unfold has_id in Hf.
  apply bool_decide_eq_false in Hf. congruence.
Qed.

Lemma update_docs_ids p f docs :
  (∀ d : Document, f d !! "_id" = d !! "_id") →
  (λ d : Document, d !! "_id") <$> update_docs p f docs
  = (λ d : Document, d !! "_id") <$> docs.
Proof.
  intros Hf. destruct (List.find p docs) as [d|] eqn:Hfind.
  - apply find_split in Hfind as (l1 & l2 & -> & Hd & Hl1).
    rewrite update_docs_split by done.
    by rewrite !fmap_app, !fmap_cons, Hf.
  - by rewrite update_docs_None.
Qed.

Lemma remove_docs_sublist p docs : remove_docs p docs `sublist_of` docs.
Proof.
  destruct (List.find p docs) as [d|] eqn:Hfind.
  - apply find_split in Hfind as (l1 & l2 & -> & Hd & Hl1).
    rewrite remove_docs_split by done.
    apply sublist_app; [done|]. by apply sublist_cons.
  - by rewrite remove_docs_None.
Qed.

(** X4: create, save-state, update and delete keep the identifiers of the
    collection unique, whatever their arguments and outcome. *)
Theorem writes_keep_ids_unique data name labels connections selected_option
    description id p w :
  unique_ids (documents w) →
  unique_ids (documents (SentraCoreController.create_sentra_core data w).2)
  ∧ unique_ids
      (documents (SentraCoreController.save_current_state name labels
                    connections selected_option description w).2)
  ∧ unique_ids (documents (SentraCoreController.update_sentra_core id p w).2)
  ∧ unique_ids (documents (SentraCoreController.delete_sentra_core id w).2).
Proof.
  intros Hu.
  assert (Hcreate : ∀ data,
            unique_ids (documents (SentraCoreController.create_sentra_core data w).2)).
  { intros data'. destruct (create_documents data' w) as [->|(_ & Hf & ->)];
      [done|]. by apply (unique_ids_snoc (VObjectId (next_oid w))). }
  split; [apply Hcreate|]. split; [rewrite save_world; apply Hcreate|]. split.
  - destruct (update_documents id p w) as [->|(_ & _ & ->)]; [done|].
    unfold unique_ids. rewrite update_docs_ids; [done|].
    intros d. by rewrite apply_set_lookup, update_dict_no_id.
  - destruct (delete_documents id w) as [->|(_ & _ & ->)]; [done|].
    unfold unique_ids in *. eapply sublist_NoDup; [exact Hu|].
    apply fmap_sublist, remove_docs_sublist.
Qed.

(** *** Valid records stay valid records *)

Lemma update_docs_fmap {A} p f (g : A → Document) (h : A → A) ms :
  (∀ m, f (g m) = g (h m)) →
  ∃ ms', update_docs p f (g <$> ms) = g <$> ms' ∧ length ms' = length ms.
Proof.
  intros Hfg. destruct (List.find p (g <$> ms)) as [d|] eqn:Hfind.
  - apply find_split in Hfind as (l1 & l2 & Hms & Hd & Hl1).
    rewrite Hms, update_docs_split by done.
    apply fmap_app_inv in Hms as (m1 & mr & -> & Hmr & ->).
    symmetry in Hmr. apply fmap_cons_inv in Hmr as (m & m2 & -> & -> & ->).
    exists (m1 ++ h m :: m2). split.
    + by rewrite fmap_app, fmap_cons, Hfg.
    + rewrite !length_app. simpl. lia.
  - exists ms. by rewrite update_docs_None.
Qed.

Lemma remove_docs_fmap {A} p (g : A → Document) ms :
  ∃ ms', remove_docs p (g <$> ms) = g <$> ms' ∧ ms' `sublist_of` ms.
Proof.
  destruct (List.find p (g <$> ms)) as [d|] eqn:Hfind.
  - apply find_split in Hfind as (l1 & l2 & Hms & Hd & Hl1).
    rewrite Hms, remove_docs_split by done.
    apply fmap_app_inv in Hms as (m1 & mr & -> & Hmr & ->).
    symmetry in Hmr. apply fmap_cons_inv in Hmr as (m & m2 & -> & -> & ->).
    exists (m1 ++ m2). split; [by rewrite fmap_app|].
    apply sublist_app; [done|]. by apply sublist_cons.
  - exists ms. by rewrite remove_docs_None.
Qed.

(** X5: a collection of valid records stays one: [create] adds at most
    the new record at the end, an [update] whose patch sets no required
    field to null keeps as many records, a [delete] leaves a sublist. *)
Theorem records_stay_records (w : World) (ms : list SentraCoreModel.t) :
  holds w ms →
  (∀ data,
     holds (SentraCoreController.create_sentra_core data w).2 ms
     ∨ holds (SentraCoreController.create_sentra_core data w).2
         (ms ++ [as_stored (new_record data w)]))
  ∧ (∀ id p, storable p →
       ∃ ms', holds (SentraCoreController.update_sentra_core id p w).2 ms'
              ∧ length ms' = length ms)
  ∧ (∀ id,
       ∃ ms', holds (SentraCoreController.delete_sentra_core id w).2 ms'
              ∧ ms' `sublist_of` ms).
Proof.
  unfold holds. intros Hw. split; [|split].
  - intros data. destruct (create_documents data w) as [->|(_ & _ & ->)];
      [by left|right]. by rewrite Hw, fmap_app.
  - intros id p Hp.
    destruct (update_documents id p w) as [->|(_ & _ & ->)]; [by exists ms|].
    rewrite Hw.
    apply (update_docs_fmap _ _ _ (patched p (clock w (ticks w)))).
    intros m. by apply apply_set_dump.
  - intros id.
    destruct (delete_documents id w) as [->|(_ & _ & ->)]; [by exists ms|].
    rewrite Hw. apply remove_docs_fmap.
Qed.

Lemma records_stay_records_witness :
  ∃ ms',
    holds (SentraCoreController.delete_sentra_core other_id two_records_world).2 ms'
    ∧ ms' `sublist_of` [older_record; newer_record].
Proof.
  destruct (records_stay_records two_records_world [older_record; newer_record])
    as (_ & _ & Hdel); [reflexivity|].
  apply Hdel.
Defined.

(** ** Counting *)

Lemma count_run w :
  reachable w = true →
  (SentraCoreController.get_sentra_core_count w).1
  = Ok (Z.of_nat (length (documents w))).
Proof.
  intros Hr. unfold SentraCoreController.get_sentra_core_count, wrapped,
    try_except, count_documents. by rewrite Hr.
Qed.

Lemma update_docs_length p f docs : length (update_docs p f docs) = length docs.
Proof.
  destruct (List.find p docs) as [d|] eqn:Hfind.
  - apply find_split in Hfind as (l1 & l2 & -> & Hd & Hl1).
    rewrite update_docs_split by done. rewrite !length_app. done.
  - by rewrite update_docs_None.
Qed.

Lemma update_reachable id p w :
  reachable w = true →
  reachable (SentraCoreController.update_sentra_core id p w).2 = true.
Proof.
  intros Hr. destruct (ObjectId_is_valid id) eqn:Hid; [|by rewrite update_malformed].
  rewrite update_run by done.
  destruct (stored id w) as [d|]; [|done].
  case_bool_decide; [done|].
  rewrite wrapped_world. unfold bind.
  pose proof (validate_world (apply_set (update_dict p (clock w (ticks w))) d)
    (logged (FindOne (VObjectId (oid_of id)))
       (with_documents
          (update_docs (has_id (VObjectId (oid_of id)))
             (apply_set (update_dict p (clock w (ticks w)))) (documents w))
          (logged (UpdateOne (VObjectId (oid_of id))
                     (update_dict p (clock w (ticks w)))) (tick w)))))
    as (_ & _ & Hre).
  destruct (SentraCoreModel.validate _ _) as [[m|e] w2]; simpl in *; by rewrite Hre.
Qed.

(** X6: on a store that responds the count is the number of documents;
    it is one more after a [create] with a fresh identifier, the same after
    any [update], and one less after a [delete] exactly when the identifier
    was stored. *)
Theorem count_follows_writes (w : World) :
  reachable w = true →
  let n := Z.of_nat (length (documents w)) in
  (SentraCoreController.get_sentra_core_count w).1 = Ok n
  ∧ (∀ data,
       List.find (has_id (VObjectId (next_oid w))) (documents w) = None →
       (SentraCoreController.get_sentra_core_count
          (SentraCoreController.create_sentra_core data w).2).1 = Ok (n + 1))
  ∧ (∀ id p,
       (SentraCoreController.get_sentra_core_count
          (SentraCoreController.update_sentra_core id p w).2).1 = Ok n)
  ∧ (∀ id, is_valid id = true →
       (SentraCoreController.get_sentra_core_count
          (SentraCoreController.delete_sentra_core id w).2).1
       = Ok (if stored id w is Some _ then n - 1 else n)).
Proof.
  intros Hr n. split; [by apply count_run|]. split; [|split].
  - intros data Hfresh. rewrite create_run by done.
    rewrite count_run by done. simpl documents. rewrite length_app. simpl.
    f_equal. lia.
  - intros id p. rewrite count_run by (by apply update_reachable).
    destruct (update_documents id p w) as [->|(_ & _ & ->)]; [done|].
    by rewrite update_docs_length.
  - intros id Hid%is_valid_accepted. rewrite delete_run by done.
    rewrite count_run by done.
    simpl documents. unfold stored.
    destruct (List.find _ (documents w)) as [d|] eqn:Hfind.
    + apply find_split in Hfind as (l1 & l2 & Hw & Hd & Hl1).
      rewrite Hw, remove_docs_split by done. subst n. rewrite Hw.
      rewrite !length_app. simpl. f_equal. lia.
    + by rewrite remove_docs_None.
Qed.

Lemma count_follows_writes_witness :
  (SentraCoreController.get_sentra_core_count two_records_world).1 = Ok 2
  ∧ (SentraCoreController.get_sentra_core_count
       (SentraCoreController.create_sentra_core sample_request two_records_world).2).1
    = Ok 3.
Proof.
  destruct (count_follows_writes two_records_world) as (Hc & Hcreate & _);
    [reflexivity|].
  split; [exact Hc|]. apply Hcreate. vm_compute. reflexivity.
Defined.

(** ** Pages *)

Lemma sorted_records ms :
  ∃ sorted,
    sorted ≡ₚ ms ∧ StronglySorted newest_first sorted
    ∧ merge_sort created_at_desc (SentraCoreModel.model_dump_by_alias <$> ms)
      = SentraCoreModel.model_dump_by_alias <$> sorted.
Proof.
  destruct (Permutation_fmap_inv SentraCoreModel.model_dump_by_alias
              (merge_sort created_at_desc
                 (SentraCoreModel.model_dump_by_alias <$> ms)) ms)
    as (sorted & Hsorted & Hperm); [apply merge_sort_Permutation|].
  exists sorted. split; [done|]. split; [|done].
  apply (StronglySorted_fmap_inv SentraCoreModel.model_dump_by_alias _
           created_at_desc); [apply created_at_desc_dump|].
  rewrite <- Hsorted. apply StronglySorted_merge_sort; apply _.
Qed.

Lemma get_all_pages w ms :
  reachable w = true → holds w ms →
  ∃ sorted,
    sorted ≡ₚ ms ∧ StronglySorted newest_first sorted
    ∧ ∀ skip limit, 0 ≤ skip ≤ MAX_INT64 → 0 ≤ limit ≤ MAX_INT64 →
        SentraCoreController.get_all_sentra_core skip limit w
        = (Ok (take (Z.to_nat limit) (drop (Z.to_nat skip) sorted)),
           logged (Find skip limit) w).
Proof.
  intros Hr Hw. destruct (sorted_records ms) as (sorted & Hperm & Hsorted & Hms).
  exists sorted. split; [done|]. split; [done|].
  intros s l Hs Hl.
  unfold SentraCoreController.get_all_sentra_core, wrapped, try_except, bind.
  rewrite find_sorted_run by done. rewrite Hw, Hms.
  by rewrite <- fmap_drop, <- fmap_take, traverseM_dump.
Qed.

Lemma take_plus {A} (l : list A) n1 n2 :
  take (n1 + n2) l = take n1 l ++ take n2 (drop n1 l).
Proof.
  revert l. induction n1 as [|n1 IH]; intros [|a l]; simpl; try done.
  - by destruct n2.
  - by rewrite IH.
Qed.

Lemma NoDup_fmap_eq {A B} (f : A → B) (l : list A) x y :
  NoDup (f <$> l) → x ∈ l → y ∈ l → f x = f y → x = y.
Proof.
  induction l as [|a l IH]; [by intros _ ?%elem_of_nil|].
  rewrite fmap_cons. intros [Ha Hl]%NoDup_cons.
  intros [->|Hx]%elem_of_cons [->|Hy]%elem_of_cons Hf; [done| | |by apply IH].
  - exfalso. apply Ha. rewrite Hf. by apply list_elem_of_fmap_2.
  - exfalso. apply Ha. rewrite <- Hf. by apply list_elem_of_fmap_2.
Qed.

(** When no two records were created at the same time, one arrangement
    only has the most recent first. *)
Lemma newest_first_unique ms sorted sorted' :
  NoDup (SentraCoreModel.created_at <$> ms) →
  sorted ≡ₚ ms → StronglySorted newest_first sorted →
  sorted' ≡ₚ ms → StronglySorted newest_first sorted' →
  sorted = sorted'.
Proof.
  intros Hnd Hp Hs Hp' Hs'.
  apply (StronglySorted_unique_strong newest_first); [|done|done|by rewrite Hp, Hp'].
  intros x1 x2 H1 H2 H12 H21. rewrite Hp in H1. rewrite Hp' in H2.
  apply (NoDup_fmap_eq SentraCoreModel.created_at ms); [done..|].
  unfold newest_first in *. lia.
Qed.

(** X7: when no two records were created at the same time, the page of
    [limit1] records from [skip] followed by the page of [limit2] records
    from [skip + limit1] is the page of [limit1 + limit2] records from
    [skip], as long as the driver can encode these numbers; the pages are
    those of every arrangement of the records that has the most recent
    first; a page from beyond the end is empty, and a first page at least as
    long as the collection holds every record. *)
Theorem pages_concatenate (w : World) (ms : list SentraCoreModel.t)
    (skip limit1 limit2 : Z) :
  reachable w = true → holds w ms →
  NoDup (SentraCoreModel.created_at <$> ms) →
  0 ≤ skip → 0 ≤ limit1 → 0 ≤ limit2 →
  skip + limit1 + limit2 ≤ MAX_INT64 →
  ∃ page1 page2,
    (SentraCoreController.get_all_sentra_core skip limit1 w).1 = Ok page1
    ∧ (SentraCoreController.get_all_sentra_core (skip + limit1) limit2 w).1
      = Ok page2
    ∧ (SentraCoreController.get_all_sentra_core skip (limit1 + limit2) w).1
      = Ok (page1 ++ page2)
    ∧ (∀ sorted, sorted ≡ₚ ms → StronglySorted newest_first sorted →
         page1 = take (Z.to_nat limit1) (drop (Z.to_nat skip) sorted)
         ∧ page2 = take (Z.to_nat limit2)
                     (drop (Z.to_nat (skip + limit1)) sorted))
    ∧ (Z.of_nat (length ms) ≤ skip → page1 = [])
    ∧ (skip = 0 → Z.of_nat (length ms) ≤ limit1 → page1 ≡ₚ ms ∧ page2 = []).
Proof.
  intros Hr Hw Hnd Hs Hl1 Hl2 Hmax.
  destruct (get_all_pages w ms Hr Hw) as (sorted & Hperm & Hsorted & Hpage).
  eexists _, _. rewrite !Hpage by lia. simpl.
  split; [done|]. split; [done|].
  assert (Hlen : length sorted = length ms) by by rewrite Hperm.
  split; [|split; [|split]].
  - f_equal. rewrite !Z2Nat.inj_add by lia.
    by rewrite take_plus, drop_drop.
  - intros sorted' Hperm' Hsorted'.
    by rewrite (newest_first_unique ms sorted sorted').
  - intros Hge. rewrite drop_ge by lia. by rewrite take_nil.
  - intros -> Hge. change (Z.to_nat 0) with 0%nat. rewrite drop_0. split.
    + rewrite take_ge; [done|lia].
    + rewrite drop_ge; [by rewrite take_nil|lia].
Qed.

Lemma pages_concatenate_witness :
  ∃ page1 page2,
    (SentraCoreController.get_all_sentra_core 0 1 two_records_world).1 = Ok page1
    ∧ (SentraCoreController.get_all_sentra_core 1 1 two_records_world).1 = Ok page2
    ∧ (SentraCoreController.get_all_sentra_core 0 2 two_records_world).1
      = Ok (page1 ++ page2).
Proof.
  destruct (pages_concatenate two_records_world [older_record; newer_record] 0 1 1)
    as (p1 & p2 & H1 & H2 & H12 & _);
    [reflexivity | reflexivity | | lia | lia | lia | unfold MAX_INT64; lia |].
  - apply (bool_decide_unpack _). vm_compute. exact I.
  - exists p1, p2. repeat split; assumption.
Defined.

(** ** Reading after an update *)

(** X8: when [update] changes a valid record with a patch that sets no
    required field to null, a following [get_by_id] returns the record
    [update] returned; it has the identifier and the [created_at] of the
    record before. *)
Theorem get_after_update id p m w :
  is_valid id = true → reachable w = true → storable p →
  stored id w = Some (SentraCoreModel.model_dump_by_alias m) →
  apply_set (update_dict p (clock w (ticks w)))
    (SentraCoreModel.model_dump_by_alias m)
  ≠ SentraCoreModel.model_dump_by_alias m →
  ∃ r w',
    SentraCoreController.update_sentra_core id p w = (Ok (Some r), w')
    ∧ (SentraCoreController.get_sentra_core_by_id id w').1 = Ok (Some r)
    ∧ SentraCoreModel.id r = SentraCoreModel.id m
    ∧ SentraCoreModel.created_at r = SentraCoreModel.created_at m.
Proof.
  intros Hid Hr Hp Hs Hne. pose proof (is_valid_accepted _ Hid) as Hacc. eexists _, _.
  split; [by apply update_returns_patched|].
  split; [|done].
  rewrite get_run by done.
  assert (Hst : ∀ w0, stored id
            (logged (FindOne (VObjectId (oid_of id)))
               (with_documents
                  (update_docs (has_id (VObjectId (oid_of id)))
                     (apply_set (update_dict p (clock w (ticks w))))
                     (documents w)) w0))
          = Some (SentraCoreModel.model_dump_by_alias
                    (patched p (clock w (ticks w)) m))).
  { intros w0. unfold stored. simpl documents.
    rewrite <- apply_set_dump by done. by apply find_update_docs. }
  rewrite Hst. unfold wrapped, try_except, bind. by rewrite validate_dump.
Qed.

Lemma get_after_update_witness :
  ∃ r w',
    SentraCoreController.update_sentra_core sample_id
      (name_patch (Some "Renamed")) sample_world_1 = (Ok (Some r), w')
    ∧ (SentraCoreController.get_sentra_core_by_id sample_id w').1 = Ok (Some r).
Proof.
  destruct (get_after_update sample_id (name_patch (Some "Renamed"))
              (as_stored (new_record sample_request sample_world)) sample_world_1)
    as (r & w' & Hu & Hg & _).
  - reflexivity.
  - reflexivity.
  - unfold storable. simpl. repeat split; discriminate.
  - exact sample_world_1_stored.
  - exact renamed_changes_sample.
  - exists r, w'. split; assumption.
Defined.

(** ** A write leaves the other records alone *)

Lemma has_id_other o o' d :
  o' ≠ o → has_id (VObjectId o) d = true → has_id (VObjectId o') d = false.
Proof.
  unfold has_id. simpl. intros Hne H%bool_decide_eq_true.
  apply bool_decide_eq_false. rewrite H. congruence.
Qed.

Lemma find_append (p : Document → bool) l1 l2 :
  List.find p (l1 ++ l2)
  = match List.find p l1 with
    | Some d => Some d
    | None => List.find p l2
    end.
Proof.
  induction l1 as [|a l1 IH]; simpl; [done|]. by destruct (p a).
Qed.

Lemma find_update_docs_other (p p' : Document → bool) f docs :
  (∀ d, p d = true → p' d = false ∧ p' (f d) = false) →
  List.find p' (update_docs p f docs) = List.find p' docs.
Proof.
  intros Hp. destruct (List.find p docs) as [d|] eqn:Hfind.
  - apply find_split in Hfind as (l1 & l2 & -> & Hd & Hl1).
    rewrite update_docs_split by done. rewrite !find_append. simpl.
    destruct (Hp d Hd) as [-> ->]. done.
  - by rewrite update_docs_None.
Qed.

Lemma find_remove_docs_other (p p' : Document → bool) docs :
  (∀ d, p d = true → p' d = false) →
  List.find p' (remove_docs p docs) = List.find p' docs.
Proof.
  intros Hp. destruct (List.find p docs) as [d|] eqn:Hfind.
  - apply find_split in Hfind as (l1 & l2 & -> & Hd & Hl1).
    rewrite remove_docs_split by done. rewrite !find_append. simpl.
    by rewrite (Hp d Hd).
  - by rewrite remove_docs_None.
Qed.

(** X9: [create] leaves every stored record as it was, and [update] and
    [delete] on a well-formed identifier leave the records with another
    identifier as they were, whatever their outcome. *)
Theorem writes_keep_other_records (id id' : string) (w : World) :
  (∀ data d, stored id' w = Some d →
     stored id' (SentraCoreController.create_sentra_core data w).2 = Some d)
  ∧ (is_valid id = true → oid_of id' ≠ oid_of id →
     (∀ p, stored id' (SentraCoreController.update_sentra_core id p w).2
           = stored id' w)
     ∧ stored id' (SentraCoreController.delete_sentra_core id w).2
       = stored id' w).
Proof.
  unfold stored. split.
  - intros data d Hd.
    destruct (create_documents data w) as [->|(_ & _ & ->)]; [done|].
    rewrite find_append. by rewrite Hd.
  - intros _ Hne. split.
    + intros p. destruct (update_documents id p w) as [->|(_ & _ & ->)]; [done|].
      apply find_update_docs_other. intros d Hd.
      rewrite has_id_apply_set. split; by apply (has_id_other (oid_of id)).
    + destruct (delete_documents id w) as [->|(_ & _ & ->)]; [done|].
      apply find_remove_docs_other. intros d Hd.
      by apply (has_id_other (oid_of id)).
Qed.

Lemma writes_keep_other_records_witness :
  stored sample_id
    (SentraCoreController.delete_sentra_core other_id sample_world_1).2
  = stored sample_id sample_world_1.
Proof.
  destruct (writes_keep_other_records other_id sample_id sample_world_1)
    as [_ Hother].
  destruct Hother as [_ Hdelete]; [reflexivity | vm_compute; discriminate|].
  exact Hdelete.
Defined.

(** ** A stored document the record model refuses *)

Lemma validate_refuses d e w :
  required d "name" v_str = Raise e →
  ∃ e' w', SentraCoreModel.validate d w = (Raise e', w').
Proof.
  intros Hname.
  unfold SentraCoreModel.validate, SentraCoreModel.with_factory, bind, ret, lift,
    new_ObjectId, utcnow, SentraCoreModel.assemble.
  rewrite Hname.
  destruct (SentraCoreModel.lookup_id d) as [x|], (d !! "created_at") as [c|],
    (d !! "updated_at") as [u|]; simpl;
    try destruct (SentraCoreModel.v_id "_id" x); simpl; eauto.
Qed.



(** X11: a PUT whose body sets the name of a stored record to null is
    answered 500, yet the null is written: the stored record then has a null
    name, [get_by_id] raises on it and the GET endpoint answers 500. *)
Theorem null_name_is_written (id : string) (d : Document) (w : World) :
  is_valid id = true → reachable w = true → stored id w = Some d →
  let w' := (SentraCoreController.update_sentra_core id (name_patch None) w).2 in
  status_code (routes.update_sentra_core id {[ "name" := VNone ]} w).1 = 500%nat
  ∧ (∃ d', stored id w' = Some d' ∧ d' !! "name" = Some VNone)
  ∧ (∃ msg, (SentraCoreController.get_sentra_core_by_id id w').1
            = Raise (Exception msg))
  ∧ status_code (routes.get_sentra_core id w').1 = 500%nat.
Proof.
  intros Hid Hr Hs w'. pose proof (is_valid_accepted _ Hid) as Hacc.
  destruct (update_existing id (name_patch None) d w Hid Hr Hs)
    as (l1 & l2 & _ & _ & Hs').
  fold w' in Hs'. rewrite apply_set_name_patch in Hs'.
  set (d' := <["name" := opt_str_value None]> _) in Hs'.
  assert (Hname : d' !! "name" = Some VNone) by apply lookup_insert_eq.
  assert (Hr' : reachable w' = true) by by apply update_reachable.
  assert (Hget : ∃ msg w2, SentraCoreController.get_sentra_core_by_id id w'
                           = (Raise (Exception msg), w2)).
  { rewrite get_run by done. rewrite Hs'. unfold wrapped, try_except, bind.
    destruct (validate_refuses d' (invalid "name")
                (logged (FindOne (VObjectId (oid_of id))) w'))
      as (e' & w2 & ->); [unfold required; by rewrite Hname|]. eauto. }
  destruct Hget as (msg & w2 & Hget).
  split; [|split; [eauto|split; [rewrite Hget; eauto|]]].
  - assert (Hupd : (∃ w0, SentraCoreController.update_sentra_core id
                            (name_patch None) w = (Ok None, w0))
                   ∨ (∃ msg w0, SentraCoreController.update_sentra_core id
                                  (name_patch None) w
                                = (Raise (Exception msg), w0))).
    { rewrite update_run by done. rewrite Hs.
      case_bool_decide; [left; eauto|right].
      unfold wrapped, try_except, bind.
      rewrite apply_set_name_patch. fold d'.
      destruct (validate_refuses d' (invalid "name")
                  (logged (FindOne (VObjectId (oid_of id)))
                     (with_documents
                        (update_docs (has_id (VObjectId (oid_of id)))
                           (apply_set (update_dict (name_patch None)
                                         (clock w (ticks w)))) (documents w))
                        (logged (UpdateOne (VObjectId (oid_of id))
                                   (update_dict (name_patch None)
                                      (clock w (ticks w)))) (tick w)))))
        as (e' & w2' & ->); [unfold required; by rewrite Hname|]. eauto. }
    unfold routes.update_sentra_core, respond, routes.except_400_500,
      try_except, bind, parse_body.
    change (SentraCoreUpdate.validate {[ "name" := VNone ]})
      with (Ok (name_patch None)). unfold ret at 1.
    by destruct Hupd as [(w0 & ->)|(m0 & w0 & ->)].
  - unfold routes.get_sentra_core, respond, routes.except_400_500, try_except, bind.
    by rewrite Hget.
Qed.

Lemma null_name_is_written_witness :
  status_code (routes.update_sentra_core sample_id {[ "name" := VNone ]}
                 sample_world_1).1 = 500%nat
  ∧ status_code
      (routes.get_sentra_core sample_id
         (SentraCoreController.update_sentra_core sample_id (name_patch None)
            sample_world_1).2).1 = 500%nat.
Proof.
  destruct (null_name_is_written sample_id _ sample_world_1 eq_refl eq_refl
              sample_world_1_stored) as (Hput & _ & _ & Hget).
  split; assumption.
Defined.


(** ** Search by name *)

Lemma filter_dump test ms :
  List.filter (name_matches test) (SentraCoreModel.model_dump_by_alias <$> ms)
  = SentraCoreModel.model_dump_by_alias <$> List.filter (record_matches test) ms.
Proof.
  induction ms as [|m ms IH]; [done|].
  rewrite fmap_cons. cbn [List.filter].
  change (name_matches test (SentraCoreModel.model_dump_by_alias m))
    with (record_matches test m).
  destruct (record_matches test m); by rewrite IH.
Qed.

Lemma find_regex_sorted_run regex pattern test skip limit w :
  reachable w = true → regex pattern = Some test →
  0 ≤ skip ≤ MAX_INT64 → 0 ≤ limit ≤ MAX_INT64 →
  find_regex_sorted regex pattern skip limit w
  = (Ok (take (Z.to_nat limit)
           (drop (Z.to_nat skip)
              (merge_sort created_at_desc
                 (List.filter (name_matches test) (documents w))))),
     logged (Find skip limit) w).
Proof.
  intros Hr Hre Hs Hl. unfold find_regex_sorted.
  destruct (Z.ltb_spec skip 0); [lia|]. destruct (Z.ltb_spec limit 0); [lia|].
  unfold bind, store_call. rewrite Hr.
  rewrite encode_int64_fits by lia. by rewrite Hre.
Qed.

Lemma filter_all {A} (f : A → bool) l :
  (∀ a, f a = true) → List.filter f l = l.
Proof.
  intros Hf. induction l as [|a l IH]; simpl; [done|]. by rewrite Hf, IH.
Qed.

(** X12: for a pattern that compiles and a [skip] and a [limit] the driver
    can encode, a search returns the page [skip], [limit] of the records
    whose name passes the test, most recent first: every record returned is
    a stored record whose name matches, and when every name matches, and no
    two records were created at the same time, the search returns what the
    listing returns. *)
Theorem search_returns_matches (regex : Regex) (pattern : string)
    (test : string → bool) (w : World) (ms : list SentraCoreModel.t)
    (skip limit : Z) :
  reachable w = true → holds w ms → regex pattern = Some test →
  0 ≤ skip ≤ MAX_INT64 → 0 ≤ limit ≤ MAX_INT64 →
  ∃ sorted,
    sorted ≡ₚ List.filter (record_matches test) ms
    ∧ StronglySorted newest_first sorted
    ∧ let page := take (Z.to_nat limit) (drop (Z.to_nat skip) sorted) in
      (SentraCoreController.search_sentra_core_by_name regex pattern skip limit w).1
      = Ok page
      ∧ Forall (λ m, test (SentraCoreModel.name m) = true ∧ m ∈ ms) page
      ∧ ((∀ s, test s = true) →
         NoDup (SentraCoreModel.created_at <$> ms) →
         (SentraCoreController.search_sentra_core_by_name regex pattern
            skip limit w).1
         = (SentraCoreController.get_all_sentra_core skip limit w).1).
Proof.
  intros Hr Hw Hre Hs Hl.
  destruct (sorted_records (List.filter (record_matches test) ms))
    as (sorted & Hperm & Hsorted & Hms).
  exists sorted. split; [done|]. split; [done|]. cbv zeta.
  assert (Hrun : SentraCoreController.search_sentra_core_by_name regex pattern
                   skip limit w
                 = (Ok (take (Z.to_nat limit) (drop (Z.to_nat skip) sorted)),
                    logged (Find skip limit) w)).
  { unfold SentraCoreController.search_sentra_core_by_name, wrapped, try_except,
      bind.
    rewrite (find_regex_sorted_run regex pattern test) by done.
    rewrite Hw, filter_dump, Hms.
    by rewrite <- fmap_drop, <- fmap_take, traverseM_dump. }
  split; [by rewrite Hrun|]. split.
  - apply Forall_forall. intros m Hm.
    assert (Hin : m ∈ List.filter (record_matches test) ms).
    { rewrite <- Hperm. eapply elem_of_sublist; [exact Hm|].
      etrans; [apply sublist_take|apply sublist_drop]. }
    apply list_elem_of_In, filter_In in Hin as [Hin Htest].
    split; [exact Htest|by apply list_elem_of_In].
  - intros Hall _. rewrite Hrun.
    unfold SentraCoreController.get_all_sentra_core, wrapped, try_except, bind.
    rewrite find_sorted_run by done.
    assert (Hf : List.filter (record_matches test) ms = ms)
      by (apply filter_all; intros m; apply Hall).
    rewrite Hf in Hms. rewrite Hw, Hms.
    by rewrite <- fmap_drop, <- fmap_take, traverseM_dump.
Qed.

Lemma search_returns_matches_witness :
  ∃ sorted,
    sorted ≡ₚ List.filter (record_matches (λ s, bool_decide (s = "newer")))
                [older_record; newer_record]
    ∧ (SentraCoreController.search_sentra_core_by_name exact_regex "newer"
         0 100 two_records_world).1
      = Ok (take 100 sorted).
Proof.
  destruct (search_returns_matches exact_regex "newer"
              (λ s, bool_decide (s = "newer")) two_records_world
              [older_record; newer_record] 0 100)
    as (sorted & Hperm & _ & Hrun & _);
    [reflexivity | reflexivity | reflexivity
    | unfold MAX_INT64; lia | unfold MAX_INT64; lia |].
  exists sorted. split; assumption.
Defined.

(** X13: the search endpoint refuses a request without a name, with a
    negative [skip] or with a [limit] outside 1..1000 with 422, without
    touching the world; a pattern the store refuses is answered 500. *)
Theorem search_refusals (regex : Regex) (name : option string)
    (skip limit : Z) (w : World) :
  (name = None ∨ skip < 0 ∨ limit < 1 ∨ 1000 < limit →
   status_code (routes.search_sentra_core regex name (Some skip) (Some limit) w).1
   = 422%nat
   ∧ (routes.search_sentra_core regex name (Some skip) (Some limit) w).2 = w)
  ∧ (∀ pattern, name = Some pattern → regex pattern = None →
       0 ≤ skip → 1 ≤ limit ≤ 1000 →
       status_code
         (routes.search_sentra_core regex name (Some skip) (Some limit) w).1
       = 500%nat).
Proof.
  split.
  - intros Hbad. unfold routes.search_sentra_core, respond, bind, Query.
    destruct name as [n|]; [|done]. unfold ret at 1.
    destruct (Z.ltb_spec skip 0); [done|]. unfold ret at 1.
    destruct (Z.ltb_spec limit 1); [done|].
    destruct (Z.ltb_spec 1000 limit); [done|].
    destruct Hbad as [?|[?|[?|?]]]; [done|lia..].
  - intros pattern -> Hre Hs [Hl1 Hl2].
    unfold routes.search_sentra_core, respond, bind, Query.
    unfold ret at 1.
    destruct (Z.ltb_spec skip 0); [lia|]. unfold ret at 1.
    destruct (Z.ltb_spec limit 1); [lia|].
    destruct (Z.ltb_spec 1000 limit); [lia|]. unfold ret at 1.
    unfold try_except, SentraCoreController.search_sentra_core_by_name, wrapped,
      try_except, bind, find_regex_sorted.
    destruct (Z.ltb_spec skip 0); [lia|]. destruct (Z.ltb_spec limit 0); [lia|].
    unfold bind, store_call, encode_int64. rewrite Hre.
    destruct (reachable w); [|done]. by destruct (_ || _).
Qed.

(** ** Defaults *)

(** X14: a create request that holds only a name is accepted, and its
    record has an empty description, no labels, no connections and an empty
    selected option; a save-state request without labels, connections or
    selected option is refused with 422 and changes nothing. *)
Theorem create_defaults_save_requires (name : string) (raw : Document) (w : World) :
  (reachable w = true →
   List.find (has_id (VObjectId (next_oid w))) (documents w) = None →
   ∃ m w',
     routes.create_sentra_core {[ "name" := VStr name ]} w
     = (mkResponse 201 (CModel m), w')
     ∧ SentraCoreModel.name m = name
     ∧ SentraCoreModel.description m = Some ""
     ∧ SentraCoreModel.labels m = []
     ∧ SentraCoreModel.connections m = []
     ∧ SentraCoreModel.selected_option m = Some "")
  ∧ (raw !! "labels" = None ∨ raw !! "connections" = None
     ∨ raw !! "selected_option" = None →
     status_code (routes.save_current_state raw w).1 = 422%nat
     ∧ (routes.save_current_state raw w).2 = w).
Proof.
  split.
  - intros Hr Hfresh. eexists _, _.
    split; [apply (create_route_run _ (SentraCoreCreate.mk name (Some "") [] [] (Some "")));
            done|]. done.
  - intros Hmiss.
    unfold routes.save_current_state, respond, bind, parse_body,
      SaveStateRequest.validate, required, with_default.
    destruct (raw !! "name") as [vn|]; [|done].
    destruct (v_str "name" vn) as [n|en]; [|done]. simpl.
    destruct (raw !! "description") as [vd|].
    + destruct (v_opt_str "description" vd) as [dsc|ed]; [|done]. simpl.
      destruct (raw !! "labels") as [vl|]; [|done].
      destruct (v_list FrontendLabel.validate "labels" vl) as [ls|el]; [|done].
      simpl. destruct (raw !! "connections") as [vc|]; [|done].
      destruct (v_list FrontendConnection.validate "connections" vc) as [cs|ec];
        [|done].
      simpl. destruct (raw !! "selected_option") as [vs|]; [|done].
      destruct Hmiss as [?|[?|?]]; congruence.
    + simpl.
      destruct (raw !! "labels") as [vl|]; [|done].
      destruct (v_list FrontendLabel.validate "labels" vl) as [ls|el]; [|done].
      simpl. destruct (raw !! "connections") as [vc|]; [|done].
      destruct (v_list FrontendConnection.validate "connections" vc) as [cs|ec];
        [|done].
      simpl. destruct (raw !! "selected_option") as [vs|]; [|done].
      destruct Hmiss as [?|[?|?]]; congruence.
Qed.

Lemma create_defaults_save_requires_witness :
  (∃ m w',
     routes.create_sentra_core {[ "name" := VStr "n" ]} sample_world
     = (mkResponse 201 (CModel m), w')
     ∧ SentraCoreModel.labels m = [])
  ∧ status_code (routes.save_current_state {[ "name" := VStr "n" ]} sample_world).1
    = 422%nat.
Proof.
  destruct (create_defaults_save_requires "n" {[ "name" := VStr "n" ]} sample_world)
    as [Hcreate Hsave].
  split.
  - destruct Hcreate as (m & w' & Hrun & _ & _ & Hl & _);
      [reflexivity | reflexivity |].
    exists m, w'. split; assumption.
  - apply Hsave. left. reflexivity.
Defined.

Lemma store_failure_answers_witness :
  status_code (routes.create_sentra_core {[ "name" := VStr "n" ]}
                 unreachable_world).1 = 400%nat
  ∧ status_code (routes.get_sentra_core sample_id unreachable_world).1 = 500%nat.
Proof.
  destruct (store_failure_answers sample_id {[ "name" := VStr "n" ]}
              {[ "name" := VStr "n"; "labels" := VList [];
                 "connections" := VList []; "selected_option" := VStr "" ]}
              ∅
              (SentraCoreCreate.mk "n" (Some "") [] [] (Some ""))
              (SaveStateRequest.mk "n" (Some "") [] [] "")
              empty_patch unreachable_world)
    as (Hc & _ & Hg & _); try reflexivity.
  split; assumption.
Defined.

Lemma writes_keep_ids_unique_witness :
  unique_ids
    (documents (SentraCoreController.create_sentra_core sample_request
                  sample_world_1).2).
Proof.
  apply (writes_keep_ids_unique sample_request "n" [] [] "" None sample_id
           empty_patch sample_world_1).
  unfold unique_ids. vm_compute. apply NoDup_cons. split; [|constructor].
  intros H. inversion H.
Defined.

Lemma search_refusals_witness :
  status_code (routes.search_sentra_core exact_regex None (Some 0) (Some 100)
                 sample_world).1 = 422%nat.
Proof.
  apply (search_refusals exact_regex None 0 100 sample_world). by left.
Defined.
